(** * EZID client: ANVL encoding and session handling

    A shallow embedding of [src/EZID.py] (the Python 3 client) and of
    [src/EZID/EZID.py] (the older urllib2 client), with the properties
    of the ANVL encoder, of the session bookkeeping and of the error
    paths.

    Conventions of the embedding:
    - a Python text string is a [string]; a character is an [ascii],
      read as the code point of the same number (0..255);
    - a [dict] is the list of its items in iteration order;
    - a bytes value is the [string] of its bytes; [utf8] gives the
      bytes of a text;
    - [None] is [None]; a value that may be [None] is an [option];
    - an operation of the client is a function from the state (the
      client object, the requests put on the wire, standard output) to
      the new state and either a raised exception or a value. *)

From Stdlib Require Import String Ascii List ZArith NArith Lia Bool Arith.
Import ListNotations.
Open Scope string_scope.

(** ** Python string primitives *)

Module PyStr.

Definition CR : ascii := "013"%char.
Definition LF : ascii := "010"%char.

(** ["\n"] as a string. *)
Definition s_LF : string := String LF EmptyString.

(** Truth value of a string: the empty string is falsy. *)
Definition str_truthy (s : string) : bool :=
  match s with EmptyString => false | String _ _ => true end.

(** Truth value of [None]-or-string. *)
Definition opt_truthy (o : option string) : bool :=
  match o with None => false | Some s => str_truthy s end.

(** Membership of a character in a regex character class [[...]],
    the class given by the characters between the brackets. *)
Fixpoint in_class (cls : string) (c : ascii) : bool :=
  match cls with
  | EmptyString => false
  | String x r => if Ascii.eqb c x then true else in_class r c
  end.

(** [re.sub("[cls]", repl, s)]: every character of the class is a
    match of length one; matches are replaced left to right and the
    text between matches is copied. *)
Fixpoint re_sub_class (cls : string) (repl : ascii -> string) (s : string)
  : string :=
  match s with
  | EmptyString => EmptyString
  | String c r =>
      if in_class cls c
      then repl c ++ re_sub_class cls repl r
      else String c (re_sub_class cls repl r)
  end.

Definition upper_hex_digits : string := "0123456789ABCDEF".

Definition hex_digit (d : N) : ascii :=
  match String.get (N.to_nat d) upper_hex_digits with
  | Some c => c
  | None => "0"%char
  end.

(** Uppercase hexadecimal digits of [n], most significant first
    (the conversion [X] of the [%] operator, without padding). *)
Fixpoint hex_upper_fuel (fuel : nat) (n : N) (acc : string) : string :=
  match fuel with
  | O => String (hex_digit (n mod 16)) acc
  | S f =>
      if (n <? 16)%N then String (hex_digit n) acc
      else hex_upper_fuel f (n / 16) (String (hex_digit (n mod 16)) acc)
  end.

Definition hex_upper (n : N) : string :=
  hex_upper_fuel (N.size_nat n) n EmptyString.

Fixpoint zeros (k : nat) : string :=
  match k with O => EmptyString | S k' => String "0" (zeros k') end.

(** ["%02X" % n]: uppercase hexadecimal, zero-padded on the left to a
    width of at least two. *)
Definition fmt_02X (n : N) : string :=
  let s := hex_upper n in zeros (2 - String.length s) ++ s.

(** [ord(c)] *)
Definition ord (c : ascii) : N := N_of_ascii c.

(** [sep.join(l)] *)
Fixpoint str_join (sep : string) (l : list string) : string :=
  match l with
  | [] => EmptyString
  | x :: r =>
      match r with
      | [] => x
      | _ :: _ => x ++ sep ++ str_join sep r
      end
  end.

(** [s.startswith(p)] *)
Fixpoint startswith (p s : string) : bool :=
  match p with
  | EmptyString => true
  | String a p' =>
      match s with
      | EmptyString => false
      | String b s' => if Ascii.eqb a b then startswith p' s' else false
      end
  end.

(** [p in s] *)
Fixpoint occurs (p s : string) : bool :=
  if startswith p s then true
  else match s with
       | EmptyString => false
       | String _ r => occurs p r
       end.

(** [s.replace(old, new)] for a non-empty [old]: occurrences are found
    left to right and do not overlap.  [skip] counts the characters of
    a match that are still to be dropped. *)
Fixpoint replace_from (old new : string) (skip : nat) (s : string) : string :=
  match s with
  | EmptyString => EmptyString
  | String c r =>
      match skip with
      | S k => replace_from old new k r
      | O =>
          if startswith old s
          then new ++ replace_from old new (String.length old - 1) r
          else String c (replace_from old new 0 r)
      end
  end.

Definition replace (old new s : string) : string := replace_from old new 0 s.

(** [s.split(sep)] for a separator of one character. *)
Fixpoint split_char (sep : ascii) (s : string) : list string :=
  match s with
  | EmptyString => [EmptyString]
  | String c r =>
      if Ascii.eqb c sep then EmptyString :: split_char sep r
      else
        match split_char sep r with
        | [] => [String c EmptyString]
        | x :: xs => String c x :: xs
        end
  end.

(** [str.isspace] of one character of Python 3, on the code points
    0..255: TAB, LF, VT, FF, CR, FS, GS, RS, US, SPACE, NEL, NBSP. *)
Definition isspace3 (c : ascii) : bool :=
  let n := N_of_ascii c in
  ((9 <=? n) && (n <=? 13) || (28 <=? n) && (n <=? 32)
   || (n =? 133) || (n =? 160))%N.

(** Whitespace of a Python 2 byte string (C locale). *)
Definition isspace2 (c : ascii) : bool :=
  let n := N_of_ascii c in
  ((9 <=? n) && (n <=? 13) || (n =? 32))%N.

Fixpoint lstrip (sp : ascii -> bool) (s : string) : string :=
  match s with
  | EmptyString => EmptyString
  | String c r => if sp c then lstrip sp r else s
  end.

Fixpoint rstrip (sp : ascii -> bool) (s : string) : string :=
  match s with
  | EmptyString => EmptyString
  | String c r =>
      match rstrip sp r with
      | EmptyString => if sp c then EmptyString else String c EmptyString
      | r' => String c r'
      end
  end.

(** [s.strip()] *)
Definition strip (sp : ascii -> bool) (s : string) : string :=
  rstrip sp (lstrip sp s).

(** [x in s] for one character [x]. *)
Fixpoint has_char (x : ascii) (s : string) : bool :=
  match s with
  | EmptyString => false
  | String c r => if Ascii.eqb c x then true else has_char x r
  end.

(** [s.endswith("\n")] *)
Fixpoint endswith_LF (s : string) : bool :=
  match s with
  | EmptyString => false
  | String c EmptyString => Ascii.eqb c LF
  | String _ r => endswith_LF r
  end.

(** [s.encode("utf-8")] on the code points 0..255: a code point below
    128 is one byte, any other is two. *)
Fixpoint utf8 (s : string) : string :=
  match s with
  | EmptyString => EmptyString
  | String c r =>
      let n := N_of_ascii c in
      if (n <? 128)%N then String c (utf8 r)
      else String (ascii_of_N (192 + n / 64))
             (String (ascii_of_N (128 + n mod 64)) (utf8 r))
  end.

Definition lower_hex_digits : string := "0123456789abcdef".

Definition lower_hex_digit (d : N) : ascii :=
  match String.get (N.to_nat d) lower_hex_digits with
  | Some c => c
  | None => "0"%char
  end.

Definition backslash : ascii := "092"%char.
Definition single_quote : ascii := "039"%char.
Definition double_quote : ascii := "034"%char.

(** The quote [repr] puts around a bytes value: the double quote when
    the value holds a single quote and no double quote, the single
    quote otherwise. *)
Definition repr_quote (b : string) : ascii :=
  if has_char single_quote b && negb (has_char double_quote b)
  then double_quote else single_quote.

(** One byte inside the quotes. *)
Definition repr_byte (quote c : ascii) : string :=
  let n := N_of_ascii c in
  if Ascii.eqb c quote || Ascii.eqb c backslash
  then String backslash (String c EmptyString)
  else if (n =? 9)%N then String backslash "t"
  else if (n =? 10)%N then String backslash "n"
  else if (n =? 13)%N then String backslash "r"
  else if ((n <? 32) || (127 <=? n))%N
  then String backslash
         (String "x" (String (lower_hex_digit (n / 16))
                        (String (lower_hex_digit (n mod 16)) EmptyString)))
  else String c EmptyString.

Fixpoint repr_bytes_body (quote : ascii) (b : string) : string :=
  match b with
  | EmptyString => EmptyString
  | String c r => repr_byte quote c ++ repr_bytes_body quote r
  end.

(** [repr(b)] of a bytes value [b], which is what [print(b)] writes. *)
Definition bytes_repr (b : string) : string :=
  let quote := repr_quote b in
  String "b" (String quote (repr_bytes_body quote b ++ String quote EmptyString)).

End PyStr.
Import PyStr.

(** ** Exceptions and results *)

Inductive exn : Type :=
| HTTPError (code : Z) (msg : string) (body : string)
    (* urllib.error.HTTPError / urllib2.HTTPError: code, msg and what
       is still to be read from fp *)
| RequestsHTTPError (code : Z) (reason : string) (body : string)
    (* requests.exceptions.HTTPError, raised by raise_for_status *)
| AttributeError
| IndexError
| KeyError.

(** The two exceptions that report an HTTP status. *)
Definition is_http_error (e : exn) : bool :=
  match e with
  | HTTPError _ _ _ | RequestsHTTPError _ _ _ => true
  | _ => false
  end.

Inductive result (A : Type) : Type :=
| Ok (a : A)
| Raise (e : exn).
Arguments Ok {A} a.
Arguments Raise {A} e.

(** ** ANVL encoding (both source files have the same two functions) *)

Definition dict : Type := list (string * string).

(** [lambda c: "%%%02X" % ord(c.group(0))] *)
Definition pct_escape (c : ascii) : string := "%" ++ fmt_02X (ord c).

(** The two character classes of the source, ["[%:\r\n]"] and
    ["[%\r\n]"]. *)
Definition label_class : string :=
  String "%" (String ":" (String CR (String LF EmptyString))).
Definition value_class : string :=
  String "%" (String CR (String LF EmptyString)).

Definition escape_label (k : string) : string :=
  re_sub_class label_class pct_escape k.
Definition escape_value (v : string) : string :=
  re_sub_class value_class pct_escape v.

(** ["%s: %s" % (label, value)] *)
Definition anvl_line (kv : string * string) : string :=
  let label := escape_label (fst kv) in
  let value := escape_value (snd kv) in
  label ++ ": " ++ value.

Definition formatAnvlFromDict (d : dict) : string :=
  str_join s_LF (map anvl_line d).

(** [range(0, n, 2)] *)
Fixpoint range2_fuel (fuel i n : nat) : list nat :=
  match fuel with
  | O => []
  | S f => if Nat.ltb i n then i :: range2_fuel f (i + 2) n else []
  end.
Definition range2 (n : nat) : list nat := range2_fuel n 0 n.

(** [l[i]] for [0 <= i]: [IndexError] out of range. *)
Definition list_index {A} (l : list A) (i : nat) : result A :=
  match nth_error l i with
  | Some x => Ok x
  | None => Raise IndexError
  end.

(** The loop of [formatAnvlFromList]: [r] is the list built so far. *)
Fixpoint anvl_list_loop (l : list string) (idx : list nat) (r : list string)
  : result (list string) :=
  match idx with
  | [] => Ok r
  | i :: idx' =>
      match list_index l i with
      | Raise e => Raise e
      | Ok li =>
          let k := escape_label li in
          match list_index l (i + 1) with
          | Raise e => Raise e
          | Ok li1 =>
              let v := escape_value li1 in
              anvl_list_loop l idx' (r ++ [k ++ ": " ++ v])
          end
      end
  end.

(** The consecutive pairs of a list: [(l[0], l[1])], [(l[2], l[3])], ... *)
Fixpoint pair_up (l : list string) : dict :=
  match l with
  | x :: y :: r => (x, y) :: pair_up r
  | _ => []
  end.

Definition formatAnvlFromList (l : list string) : result string :=
  match anvl_list_loop l (range2 (List.length l)) [] with
  | Raise e => Raise e
  | Ok r => Ok (str_join s_LF r)
  end.

(** ** The wire, the client object and the monad of operations *)

(** A request as the client hands it to the HTTP library.  [req_auth]
    is the [auth=] pair of [requests.get]. *)
Record Request : Type := mkRequest {
  req_method : string;
  req_url : string;
  req_headers : list (string * string);
  req_data : option string;
  req_auth : option (string * string)
}.

(** The response the HTTP library ends with (after its own redirect and
    Basic-auth handling).  [set_cookie] is the value of the
    [Set-Cookie] header when there is one; [content] is the body, taken
    as text that decodes. *)
Record Response : Type := mkResponse {
  status_code : Z;
  reason : string;
  set_cookie : option string;
  content : string
}.

(** The remote service: its answer to a request, given the requests it
    has received before. *)
Definition Server : Type := list Request -> Request -> Response.

(** The handlers [__init__] installs in the opener. *)
Record Opener : Type := mkOpener {
  proxy_handler : option dict;
  basic_auth : option (string * string * string * string)
}.

Record EZIDClient : Type := mkClient {
  _proxy : option dict;
  _opener : Opener;
  _server : string;
  _credentials : option dict;
  _session_id : option string;
  _cookie : option string
}.

Record State : Type := mkState {
  self : EZIDClient;
  wire : list Request;
  stdout : list string
}.

Definition M (A : Type) : Type := State -> State * result A.

Definition ret {A} (a : A) : M A := fun st => (st, Ok a).
Definition raise {A} (e : exn) : M A := fun st => (st, Raise e).
Definition lift {A} (r : result A) : M A := fun st => (st, r).
Definition bind {A B} (m : M A) (k : A -> M B) : M B :=
  fun st =>
    match m st with
    | (st', Ok a) => k a st'
    | (st', Raise e) => (st', Raise e)
    end.

Notation "x <- m ;; k" := (bind m (fun x => k))
  (at level 61, m at next level, right associativity).
Notation "m ;;; k" := (bind m (fun _ => k))
  (at level 61, right associativity).

(** [try: m  except HTTPError as e: h e] (urllib's [HTTPError]). *)
Definition try_except_HTTPError {A} (m : M A) (h : exn -> M A) : M A :=
  fun st =>
    match m st with
    | (st', Raise (HTTPError code msg body)) => h (HTTPError code msg body) st'
    | other => other
    end.

Definition get_self : M EZIDClient := fun st => (st, Ok (self st)).

Definition print (s : string) : M unit :=
  fun st => (mkState (self st) (wire st) (stdout st ++ [s]), Ok tt).

(** Truth value of a dict-or-[None]. *)
Definition dict_truthy (d : option dict) : bool :=
  match d with Some (_ :: _) => true | _ => false end.

Fixpoint dict_lookup (d : dict) (k : string) : option string :=
  match d with
  | [] => None
  | (k', v) :: r => if String.eqb k k' then Some v else dict_lookup r k
  end.

(** [d.get(k, default)] *)
Definition dict_get (d : dict) (k default : string) : string :=
  match dict_lookup d k with Some v => v | None => default end.

(** [d[k]] *)
Definition dict_item (d : dict) (k : string) : result string :=
  match dict_lookup d k with Some v => Ok v | None => Raise KeyError end.

(** [request.add_header(key, val)] *)
Definition add_header (key val : string) (r : Request) : Request :=
  mkRequest (req_method r) (req_url r) (req_headers r ++ [(key, val)])
            (req_data r) (req_auth r).

(** [if self._cookie: request.add_header("Cookie", self._cookie)] *)
Definition with_cookie (c : EZIDClient) (request : Request) : Request :=
  if opt_truthy (_cookie c)
  then add_header "Cookie"
         (match _cookie c with Some k => k | None => "" end) request
  else request.

(** [h.split(";")[0].split("=")[1]] *)
Definition cookie_value (h : string) : result string :=
  match list_index (split_char ";" h) 0 with
  | Raise e => Raise e
  | Ok first => list_index (split_char "=" first) 1
  end.

(** [self.session_id = sid] (the property setter, the same in both
    files). *)
Definition set_session_id (sid : option string) : M unit :=
  fun st =>
    let c := self st in
    let c1 := mkClient (_proxy c) (_opener c) (_server c) (_credentials c)
                       sid (_cookie c) in
    let c2 :=
      if opt_truthy (_session_id c1)
      then mkClient (_proxy c1) (_opener c1) (_server c1) (_credentials c1)
             (_session_id c1)
             (Some ("sessionid=" ++
                    match _session_id c1 with Some s => s | None => "" end))
      else c1 in
    (mkState c2 (wire st) (stdout st), Ok tt).

(** [EZIDClient(server, proxy, credentials, session_id)] *)
Definition __init__ (server : string) (proxy credentials : option dict)
    (session_id : option string) : result EZIDClient :=
  let cookie :=
    if opt_truthy session_id
    then Some ("sessionid=" ++ match session_id with Some s => s | None => "" end)
    else None in
  let mk auth :=
    mkClient proxy
      (mkOpener (if dict_truthy proxy then proxy else None) auth)
      server credentials session_id cookie in
  if dict_truthy credentials then
    let cr := match credentials with Some d => d | None => [] end in
    match dict_item cr "username" with
    | Raise e => Raise e
    | Ok u =>
        match dict_item cr "password" with
        | Raise e => Raise e
        | Ok p => Ok (mk (Some ("EZID", server, u, p)))
        end
    end
  else Ok (mk None).

(** The request goes out and the service answers: one exchange. *)
Definition send (srv : Server) (request : Request) : M Response :=
  fun st =>
    (mkState (self st) (wire st ++ [request]) (stdout st),
     Ok (srv (wire st) request)).

(** [urllib.request.Request(url)] with [get_method] and [data] set. *)
Definition urllib_Request (method url : string) : Request :=
  mkRequest method url [] None None.
Definition with_data (body : string) (r : Request) : Request :=
  mkRequest (req_method r) (req_url r) (req_headers r) (Some body)
            (req_auth r).

(** ** [src/EZID.py] *)

Module EZID.
Section WithServer.
Variable srv : Server.

(** [self._opener.open(request)]: the standard error processor of
    [urllib.request] raises [HTTPError] unless [200 <= code < 300].
    The response is the one the library ends with.  What the library
    does on its own before that is not modelled: a request it sends
    again (a redirect followed, a Basic-auth challenge answered with
    the credentials [__init__] gave to the handler), and a request
    [http.client] refuses to send (a header value with a bare LF, a
    blank in the URL). *)
Definition opener_open (request : Request) : M Response :=
  r <- send srv request ;;
  if ((200 <=? status_code r) && (status_code r <? 300))%Z
  then ret r
  else raise (HTTPError (status_code r) (reason r) (content r)).

Definition _get_request (request : Request) (login : bool) : M string :=
  c <- get_self ;;
  let request := with_cookie c request in
  c <- try_except_HTTPError (opener_open request)
         (fun e =>
            (* [e.read()] is a bytes value, the body as the service
               sent it: [print] writes its [repr].  Reading empties the
               stream of the exception; [raise] raises the same
               exception again *)
            match e with
            | HTTPError code msg b =>
                print (bytes_repr (utf8 b)) ;;; raise (HTTPError code msg "")
            | _ => raise e
            end) ;;
  let output := content c in
  if login then
    (* the header lookup gives None when the header is missing; the
       cookie value is text, which has no [decode] *)
    match set_cookie c with
    | None => raise AttributeError
    | Some h => _ <- lift (cookie_value h) ;; raise AttributeError
    end
  else ret output.

Definition view (identifier : string) : M string :=
  c <- get_self ;;
  let url := _server c ++ "/id/" ++ identifier in
  _get_request (urllib_Request "GET" url) false.

(** [res.raise_for_status()] of [requests]: an error for the status
    codes 400..599. *)
Definition raise_for_status (res : Response) : M unit :=
  if ((400 <=? status_code res) && (status_code res <? 600))%Z
  then raise (RequestsHTTPError (status_code res) (reason res) (content res))
  else ret tt.

(** [requests.get(url, auth=auth)] as [login] builds it. *)
Definition login_request (c : EZIDClient) : Request :=
  let url := _server c ++ "/" ++ "login" in
  let auth :=
    if dict_truthy (_credentials c) then
      let cr := match _credentials c with Some d => d | None => [] end in
      Some (dict_get cr "username" "", dict_get cr "password" "")
    else None in
  mkRequest "GET" url [] None auth.

Definition login : M (option string) :=
  c <- get_self ;;
  res <- send srv (login_request c) ;;
  raise_for_status res ;;;
  sid <- match set_cookie res with
         | None => raise AttributeError
         | Some h => lift (cookie_value h)
         end ;;
  set_session_id (Some sid) ;;;
  c' <- get_self ;;
  ret (_session_id c').

Definition logout : M (option string) :=
  c <- get_self ;;
  let request := urllib_Request "GET" (_server c ++ "/" ++ "logout") in
  out <- _get_request request false ;;
  set_session_id (Some out) ;;;
  c' <- get_self ;;
  ret (_session_id c').

(** The first two lines of [update], [create], [mint] and [delete]:
    [if not self.session_id: self.session_id = self.login()]. *)
Definition login_if_no_session : M unit :=
  c <- get_self ;;
  if negb (opt_truthy (_session_id c))
  then sid <- login ;; set_session_id sid
  else ret tt.

Definition update (identifier : string) (data : dict) : M string :=
  login_if_no_session ;;;
  c <- get_self ;;
  let request := urllib_Request "POST" (_server c ++ "/id/" ++ identifier) in
  let request := add_header "Content-Type" "text/plain; charset=UTF-8" request in
  let request := with_data (formatAnvlFromDict data) request in
  _get_request request false.

Definition create (identifier : string) (data : option dict) : M string :=
  login_if_no_session ;;;
  c <- get_self ;;
  let request := urllib_Request "PUT" (_server c ++ "/id/" ++ identifier) in
  let request :=
    match data with
    | Some (e :: d) =>
        with_data (formatAnvlFromDict (e :: d))
          (add_header "Content-Type" "text/plain; charset=UTF-8" request)
    | _ => request
    end in
  _get_request request false.

Definition mint (shoulder : string) (data : option dict) : M string :=
  login_if_no_session ;;;
  c <- get_self ;;
  let request :=
    urllib_Request "POST" (_server c ++ "/shoulder/" ++ shoulder) in
  let request :=
    match data with
    | Some (e :: d) =>
        with_data (formatAnvlFromDict (e :: d))
          (add_header "Content-Type" "text/plain; charset=UTF-8" request)
    | _ => request
    end in
  out <- _get_request request false ;;
  ret (strip isspace3 (replace "success: " "" out)).

Definition delete (identifier : string) : M string :=
  login_if_no_session ;;;
  c <- get_self ;;
  let request := urllib_Request "DELETE" (_server c ++ "/id/" ++ identifier) in
  let request := add_header "Content-Type" "text/plain; charset=UTF-8" request in
  _get_request request false.

End WithServer.
End EZID.

(** ** [src/EZID/EZID.py] (urllib2) *)

Module EZID_urllib2.
Section WithServer.
Variable srv : Server.
(** The status codes the base class [urllib2.HTTPErrorProcessor] lets
    through; the class is the library's, so it is a parameter here
    ([200 <= code < 300] since Python 2.6, [200] and [206] before). *)
Variable base_accepts : Z -> bool.

(** [_MyHTTPErrorProcessor.http_response]: [Ok] for a response that is
    returned, [Raise] for the [HTTPError] the base class ends with. *)
Definition http_response (response : Response) : result Response :=
  if (status_code response =? 201)%Z then Ok response
  else if base_accepts (status_code response) then Ok response
  else Raise (HTTPError (status_code response) (reason response)
                        (content response)).

(** [self._opener.open(request)]; as for [src/EZID.py], the response is
    the one the library ends with, and what its Basic-auth handler and
    its redirect handler send on their own is not modelled. *)
Definition opener_open (request : Request) : M Response :=
  r <- send srv request ;;
  lift (http_response r).

Definition _get_request (request : Request) (login : bool) : M string :=
  c <- get_self ;;
  let request := with_cookie c request in
  c <- opener_open request ;;
  let output := content c in
  let output := if negb (endswith_LF output) then output ++ s_LF else output in
  if login then
    (* the header lookup of Python 2 raises KeyError when the header is
       missing *)
    match set_cookie c with
    | None => raise KeyError
    | Some h => lift (cookie_value h)
    end
  else ret output.

Definition view (identifier : string) : M string :=
  c <- get_self ;;
  _get_request (urllib_Request "GET" (_server c ++ "/id/" ++ identifier)) false.

Definition login : M (option string) :=
  c <- get_self ;;
  let request :=
    urllib_Request "GET" (replace "http:" "https:" (_server c) ++ "/" ++ "login") in
  sid <- _get_request request true ;;
  set_session_id (Some sid) ;;;
  c' <- get_self ;;
  ret (_session_id c').

Definition logout : M (option string) :=
  c <- get_self ;;
  let request :=
    urllib_Request "GET" (replace "http:" "https:" (_server c) ++ "/" ++ "logout") in
  out <- _get_request request false ;;
  set_session_id (Some out) ;;;
  c' <- get_self ;;
  ret (_session_id c').

Definition login_if_no_session : M unit :=
  c <- get_self ;;
  if negb (opt_truthy (_session_id c))
  then sid <- login ;; set_session_id sid
  else ret tt.

Definition update (identifier : string) (data : dict) : M string :=
  login_if_no_session ;;;
  c <- get_self ;;
  let request := urllib_Request "POST" (_server c ++ "/id/" ++ identifier) in
  let request := add_header "Content-Type" "text/plain; charset=UTF-8" request in
  let request := with_data (formatAnvlFromDict data) request in
  _get_request request false.

Definition create (identifier : string) (data : option dict) : M string :=
  login_if_no_session ;;;
  c <- get_self ;;
  let request := urllib_Request "PUT" (_server c ++ "/id/" ++ identifier) in
  let request :=
    match data with
    | Some (e :: d) =>
        with_data (formatAnvlFromDict (e :: d))
          (add_header "Content-Type" "text/plain; charset=UTF-8" request)
    | _ => request
    end in
  _get_request request false.

Definition mint (shoulder : string) (data : option dict) : M string :=
  login_if_no_session ;;;
  c <- get_self ;;
  let request :=
    urllib_Request "POST" (_server c ++ "/shoulder/" ++ shoulder) in
  let request :=
    match data with
    | Some (e :: d) =>
        with_data (formatAnvlFromDict (e :: d))
          (add_header "Content-Type" "text/plain; charset=UTF-8" request)
    | _ => request
    end in
  out <- _get_request request false ;;
  ret (strip isspace2 (replace "success: " "" out)).

End WithServer.
End EZID_urllib2.

(** ** Reading an ANVL line back

    Neither source file has a decoder; the two definitions below follow
    the words of the specification (split the line on the first
    [": "], replace each [%XX] by the character with that hexadecimal
    code) and serve to state that the encoding loses nothing. *)

Module AnvlSpec.

Definition hex_value (c : ascii) : option N :=
  let n := N_of_ascii c in
  if ((48 <=? n) && (n <=? 57))%N then Some (n - 48)%N
  else if ((65 <=? n) && (n <=? 70))%N then Some (n - 55)%N
  else if ((97 <=? n) && (n <=? 102))%N then Some (n - 87)%N
  else None.

Fixpoint unescape (s : string) : string :=
  match s with
  | EmptyString => EmptyString
  | String c r =>
      let keep := String c (unescape r) in
      if Ascii.eqb c "%" then
        match r with
        | String a (String b r') =>
            match hex_value a, hex_value b with
            | Some x, Some y =>
                String (ascii_of_N (16 * x + y)) (unescape r')
            | _, _ => keep
            end
        | _ => keep
        end
      else keep
  end.

Fixpoint str_drop (n : nat) (s : string) : string :=
  match n, s with
  | S n', String _ r => str_drop n' r
  | _, _ => s
  end.

(** [line.split(sep, 1)] when [sep] occurs, [None] when it does not. *)
Fixpoint split_first (sep s : string) : option (string * string) :=
  if startswith sep s then Some (EmptyString, str_drop (String.length sep) s)
  else
    match s with
    | EmptyString => None
    | String c r =>
        match split_first sep r with
        | Some (a, b) => Some (String c a, b)
        | None => None
        end
    end.

Definition decode_line (line : string) : option (string * string) :=
  match split_first ": " line with
  | Some (k, v) => Some (unescape k, unescape v)
  | None => None
  end.

(** The escaping in the words of the specification: a reserved
    character becomes [%] and the two uppercase hexadecimal digits of
    its code point, any other character stays.  The digits are read off
    the eight bits of the character, four bits a digit, by a table of
    their own: nothing here goes through [hex_digit], [fmt_02X] or
    [ord] of the encoder. *)
Definition nibble_digit (b3 b2 b1 b0 : bool) : ascii :=
  match b3, b2, b1, b0 with
  | false, false, false, false => "0"
  | false, false, false, true => "1"
  | false, false, true, false => "2"
  | false, false, true, true => "3"
  | false, true, false, false => "4"
  | false, true, false, true => "5"
  | false, true, true, false => "6"
  | false, true, true, true => "7"
  | true, false, false, false => "8"
  | true, false, false, true => "9"
  | true, false, true, false => "A"
  | true, false, true, true => "B"
  | true, true, false, false => "C"
  | true, true, false, true => "D"
  | true, true, true, false => "E"
  | true, true, true, true => "F"
  end%char.

(** [Ascii b0 .. b7] has [b0] as its lowest bit. *)
Definition two_hex_digits (c : ascii) : string :=
  match c with
  | Ascii b0 b1 b2 b3 b4 b5 b6 b7 =>
      String (nibble_digit b7 b6 b5 b4)
        (String (nibble_digit b3 b2 b1 b0) EmptyString)
  end.

Fixpoint escaped (reserved : list ascii) (s : string) : string :=
  match s with
  | EmptyString => EmptyString
  | String c r =>
      (if existsb (Ascii.eqb c) reserved
       then String "%" (two_hex_digits c)
       else String c EmptyString) ++ escaped reserved r
  end.

Definition key_reserved : list ascii := ["%"; ":"; CR; LF]%char.
Definition value_reserved : list ascii := ["%"; CR; LF]%char.

Definition encoded_line (kv : string * string) : string :=
  escaped key_reserved (fst kv) ++ ": " ++ escaped value_reserved (snd kv).

End AnvlSpec.

(** ** The operations as a caller picks them *)

Inductive operation : Type :=
| Login
| Logout
| View (identifier : string)
| Update (identifier : string) (data : dict)
| Create (identifier : string) (data : option dict)
| Mint (shoulder : string) (data : option dict)
| Delete (identifier : string).

(** The operations that start with
    [if not self.session_id: self.session_id = self.login()]. *)
Definition mutating (o : operation) : bool :=
  match o with
  | Update _ _ | Create _ _ | Mint _ _ | Delete _ => true
  | Login | Logout | View _ => false
  end.

Definition perform (srv : Server) (o : operation) : M (option string) :=
  match o with
  | Login => EZID.login srv
  | Logout => EZID.logout srv
  | View i => x <- EZID.view srv i ;; ret (Some x)
  | Update i d => x <- EZID.update srv i d ;; ret (Some x)
  | Create i d => x <- EZID.create srv i d ;; ret (Some x)
  | Mint sh d => x <- EZID.mint srv sh d ;; ret (Some x)
  | Delete i => x <- EZID.delete srv i ;; ret (Some x)
  end.

(** The derived attribute: a session id that counts as true comes with
    the cookie made from it. *)
Definition cookie_derived (c : EZIDClient) : Prop :=
  forall s, _session_id c = Some s -> s <> "" ->
            _cookie c = Some ("sessionid=" ++ s).

(** [m] keeps the derived cookie. *)
Definition keeps_cookie {A} (m : M A) : Prop :=
  forall st, cookie_derived (self st) -> cookie_derived (self (fst (m st))).

(** [m] puts at most [n] requests on the wire and takes none back. *)
Definition sends_at_most {A} (n : nat) (m : M A) : Prop :=
  forall st, exists l,
    wire (fst (m st)) = (wire st ++ l)%list /\ List.length l <= n.

(** ** Services and clients used in the examples *)

Module Scenario.

Definition server_url : string := "https://ezid.cdlib.org".

Definition url_is (path : string) (r : Request) : bool :=
  String.eqb (req_url r) (server_url ++ path).

Definition minted : Response :=
  mkResponse 200 "OK" None ("success: ark:/99999/fk412345" ++ s_LF).

Definition session_cookie : Response :=
  mkResponse 200 "OK" (Some "sessionid=abc123; Path=/")
             ("success: session cookie returned" ++ s_LF).

Definition unauthorized : Response :=
  mkResponse 401 "UNAUTHORIZED" None ("error: unauthorized" ++ s_LF).

Definition flushed : Response :=
  mkResponse 200 "OK" None
             ("success: authentication credentials flushed" ++ s_LF).

(** The service as the doctests show it: a login needs credentials. *)
Definition ezid_server : Server :=
  fun _ r =>
    if url_is "/login" r then
      match req_auth r with
      | Some _ => session_cookie
      | None => unauthorized
      end
    else if url_is "/logout" r then flushed
    else minted.

(** A service that hands a session to whoever asks. *)
Definition open_server : Server :=
  fun _ r => if url_is "/login" r then session_cookie else minted.

(** A service whose login answers 200 without a [Set-Cookie] header. *)
Definition no_cookie_server : Server :=
  fun _ r => if url_is "/login" r then flushed else minted.

(** A service whose login answers 300 (Multiple Choices) and a cookie. *)
Definition choices_server : Server :=
  fun _ r =>
    if url_is "/login" r
    then mkResponse 300 "MULTIPLE CHOICES" (Some "sessionid=abc123; Path=/") ""
    else minted.

(** A service whose session ids contain [=]. *)
Definition padded_cookie_server : Server :=
  fun _ r =>
    if url_is "/login" r
    then mkResponse 200 "OK" (Some "sessionid=abc=def; Path=/") ""
    else minted.

(** A service whose answer to a mint holds ["success: "] twice. *)
Definition echo_server : Server :=
  fun _ r =>
    if url_is "/login" r then session_cookie
    else mkResponse 200 "OK" None
           ("success: ark:/99999/fk4/success: x" ++ s_LF).

Definition client_of (credentials : option dict) (session_id : option string)
  : EZIDClient :=
  match __init__ server_url None credentials session_id with
  | Ok c => c
  | Raise _ => mkClient None (mkOpener None None) server_url None None None
  end.

Definition anonymous : EZIDClient := client_of None None.
Definition with_session : EZIDClient := client_of None (Some "abc123").
Definition with_credentials : EZIDClient :=
  client_of (Some [("username", "apitest"); ("password", "secret")]) None.

Definition start (c : EZIDClient) : State := mkState c [] [].

End Scenario.

(** ** Further definitions: the encoder *)

(** The items of a dict as the flat list [label, value, label, value,
    ...] that [formatAnvlFromList] takes. *)
Fixpoint flatten_items (d : dict) : list string :=
  match d with
  | [] => []
  | (k, v) :: r => k :: v :: flatten_items r
  end.

(** Number of characters of [s] that are in the class [cls]. *)
Fixpoint count_class (cls s : string) : nat :=
  match s with
  | EmptyString => 0
  | String c r => (if in_class cls c then 1 else 0) + count_class cls r
  end.

(** Every [%] of [s] is followed by two uppercase hexadecimal digits. *)
Fixpoint escapes_wellformed (s : string) : bool :=
  match s with
  | EmptyString => true
  | String c r =>
      if Ascii.eqb c "%" then
        match r with
        | String a (String b r') =>
            in_class upper_hex_digits a && in_class upper_hex_digits b
            && escapes_wellformed r'
        | _ => false
        end
      else escapes_wellformed r
  end.

(** ** Further definitions: the client *)

(** What the constructor fixes: proxy, opener, server, credentials. *)
Definition same_config (c c' : EZIDClient) : Prop :=
  _proxy c' = _proxy c /\ _opener c' = _opener c
  /\ _server c' = _server c /\ _credentials c' = _credentials c.

(** A cookie that counts as true is followed by one that does. *)
Definition cookie_kept (c c' : EZIDClient) : Prop :=
  opt_truthy (_cookie c) = true -> opt_truthy (_cookie c') = true.

(** [m] takes the client object from [c] to some [c'] with [R c c']. *)
Definition relates {A} (R : EZIDClient -> EZIDClient -> Prop) (m : M A)
  : Prop :=
  forall st, R (self st) (self (fst (m st))).

(** [m] prints nothing unless it raises. *)
Definition quiet_on_success {A} (m : M A) : Prop :=
  forall st, (exists a, snd (m st) = Ok a) -> stdout (fst (m st)) = stdout st.

(** The operations on the client of [src/EZID/EZID.py], which has no
    [delete] method: calling it is an [AttributeError]. *)
Definition perform_urllib2 (srv : Server) (accepts : Z -> bool)
    (o : operation) : M (option string) :=
  match o with
  | Login => EZID_urllib2.login srv accepts
  | Logout => EZID_urllib2.logout srv accepts
  | View i => x <- EZID_urllib2.view srv accepts i ;; ret (Some x)
  | Update i d => x <- EZID_urllib2.update srv accepts i d ;; ret (Some x)
  | Create i d => x <- EZID_urllib2.create srv accepts i d ;; ret (Some x)
  | Mint sh d => x <- EZID_urllib2.mint srv accepts sh d ;; ret (Some x)
  | Delete _ => raise AttributeError
  end.

(** The part of [s] before the first [x] (all of [s] when [x] does not
    occur), and the part after it (empty when [x] does not occur). *)
Fixpoint str_before (x : ascii) (s : string) : string :=
  match s with
  | EmptyString => EmptyString
  | String c r => if Ascii.eqb c x then EmptyString else String c (str_before x r)
  end.

Fixpoint str_after (x : ascii) (s : string) : string :=
  match s with
  | EmptyString => EmptyString
  | String c r => if Ascii.eqb c x then r else str_after x r
  end.

(** ** The command line *)

From Stdlib Require DecimalString.

(** [str(n)] for an [int]. *)
Definition str_of_Z (n : Z) : string :=
  DecimalString.NilZero.string_of_int (Z.to_int n).

(** [str(x)] for a text or [None], as [print] and [%s] show it. *)
Definition str_of (o : option string) : string :=
  match o with Some s => s | None => "None" end.

(** [s.split(sep, 1)] for a separator of one character. *)
Fixpoint split_max1 (sep : ascii) (s : string) : list string :=
  match s with
  | EmptyString => [EmptyString]
  | String c r =>
      if Ascii.eqb c sep then [EmptyString; r]
      else
        match split_max1 sep r with
        | [] => [String c EmptyString]
        | x :: xs => String c x :: xs
        end
  end.

(** [d[k] = v]: the value of an existing key is replaced where the key
    is, a new key goes to the end. *)
Fixpoint dict_set (d : dict) (k v : string) : dict :=
  match d with
  | [] => [(k, v)]
  | (k', v') :: r =>
      if String.eqb k k' then (k', v) :: r else (k', v') :: dict_set r k v
  end.

(** A value of the [operations] table: an [int] or a [lambda]. *)
Inductive arity : Type :=
| ArgCount (n : Z)
| ArgTest (f : Z -> bool).

(** How a function of the command line ends: it returns, or
    [_usageError()] writes the usage text to standard error and leaves
    with [sys.exit(1)], or an exception goes up ([ValueError] from
    unpacking, or one of the exceptions of the library). *)
Inductive cli_result (A : Type) : Type :=
| Returned (a : A)
| UsageExit
| ValueError
| Raised (e : exn).
Arguments Returned {A} a.
Arguments UsageExit {A}.
Arguments ValueError {A}.
Arguments Raised {A} e.

Definition cbind {A B} (m : cli_result A) (k : A -> cli_result B)
  : cli_result B :=
  match m with
  | Returned a => k a
  | UsageExit => UsageExit
  | ValueError => ValueError
  | Raised e => Raised e
  end.

Definition of_result {A} (r : result A) : cli_result A :=
  match r with Ok a => Returned a | Raise e => Raised e end.

Notation "x <~ m ;; k" := (cbind m (fun x => k))
  (at level 61, m at next level, right associativity).

Definition _usageError {A} : cli_result A := UsageExit.

(** [lambda l: l%2 == 1] *)
Definition odd_count (l : Z) : bool := (l mod 2 =? 1)%Z.

(** The loop [for i in range(0, len(l), 2): data[l[i]] = l[i+1]]; the
    right-hand side is evaluated first. *)
Fixpoint data_loop (l : list string) (idx : list nat) (data : dict)
  : result dict :=
  match idx with
  | [] => Ok data
  | i :: idx' =>
      match list_index l (i + 1) with
      | Raise e => Raise e
      | Ok v =>
          match list_index l i with
          | Raise e => Raise e
          | Ok k => data_loop l idx' (dict_set data k v)
          end
      end
  end.

Definition parsed : Type :=
  (option dict * option string * string * option string * option dict)%type.

Section ProcessArgs.
(** The table [operations] of the file, in the order of its keys. *)
Variable operations : list (string * arity).

Fixpoint table_lookup (t : list (string * arity)) (k : string)
  : option arity :=
  match t with
  | [] => None
  | (k', a) :: r => if String.eqb k k' then Some a else table_lookup r k
  end.

(** [operations[operation]] *)
Definition table_item (k : string) : cli_result arity :=
  match table_lookup operations k with
  | Some a => Returned a
  | None => Raised KeyError
  end.

Definition process_args (args : list string) : cli_result parsed :=
  let len := Z.of_nat (List.length args) in
  if (len <? 3)%Z then _usageError else
  (* credentials = session_id = identifier = data = None *)
  let session_id : option string := None in
  a1 <~ of_result (list_index args 1) ;;
  credentials <~
    (if has_char ":" a1 then
       match split_max1 ":" a1 with
       | [u; p] => Returned (Some [("username", u); ("password", p)])
       | _ => ValueError
       end
     else
       (* [elif args[1] != "-": sessionid=args[1]] binds the local name
          [sessionid], which is read nowhere *)
       Returned None) ;;
  a2 <~ of_result (list_index args 2) ;;
  let operation := filter (fun o => startswith a2 o) (map fst operations) in
  if negb (Nat.eqb (List.length operation) 1) then _usageError else
  operation <~ of_result (list_index operation 0) ;;
  ar <~ table_item operation ;;
  if match ar with
     | ArgCount n => negb (len - 3 =? n)%Z
     | ArgTest f => negb (f (len - 3)%Z)
     end
  then _usageError else
  identifier <~
    (if (3 <? len)%Z
     then x <~ of_result (list_index args 3) ;; Returned (Some x)
     else Returned None) ;;
  data <~
    (if existsb (String.eqb operation) ["mint"; "create"; "update"] then
       if (4 <? len)%Z then
         let l := skipn 4 args in
         d <~ of_result (data_loop l (range2 (List.length l)) []) ;;
         Returned (Some d)
       else Returned None
     else Returned None) ;;
  Returned (credentials, session_id, operation, identifier, data).

End ProcessArgs.

(** The command line of [src/EZID.py]. *)
Module CLI.

Definition SERVER : string := "https://ezid.cdlib.org".

Definition operations : list (string * arity) :=
  [("mint", ArgTest odd_count); ("create", ArgTest odd_count);
   ("view", ArgCount 1); ("update", ArgTest odd_count);
   ("delete", ArgTest odd_count); ("login", ArgCount 0);
   ("logout", ArgCount 0)].

Definition process_args : list string -> cli_result parsed :=
  process_args operations.

(** The [try] block of [main].  An identifier that is [None] would be
    shown as [None] by [%s].  Standard output takes one entry for each
    [print]: the text printed, which every operation returns. *)
Definition main_try (srv : Server) (operation : string)
    (identifier : option string) (data : option dict) : M unit :=
  if String.eqb operation "login" then
    r <- EZID.login srv ;; print (str_of r)
  else if String.eqb operation "view" then
    r <- EZID.view srv (str_of identifier) ;; print r
  else if String.eqb operation "update" then
    match data with
    | Some (e :: d) =>
        r <- EZID.update srv (str_of identifier) (e :: d) ;; print r
    | _ => ret tt
    end
  else if String.eqb operation "delete" then
    r <- EZID.delete srv (str_of identifier) ;; print r
  else if String.eqb operation "create" then
    r <- EZID.create srv (str_of identifier) data ;; print r
  else if String.eqb operation "mint" then
    print ("MINTING" ++ s_LF) ;;;
    r <- EZID.mint srv (str_of identifier) data ;; print r
  else ret tt.

(** [except urllib.error.HTTPError as e: print(e.code, e.msg); if e.fp:
    print(e.fp.read())]; the exception of an HTTP answer has its
    response as [fp], and what is read from it is a bytes value, of
    which [print] writes the [repr]. *)
Definition main_except (e : exn) : M unit :=
  match e with
  | HTTPError code msg body =>
      print (str_of_Z code ++ " " ++ msg) ;;; print (bytes_repr (utf8 body))
  | _ => raise e
  end.

(** [main(argvin)], started with [w] on the wire and [out] on standard
    output: what is on both afterwards and how [main] ends. *)
Definition main (srv : Server) (argvin : list string)
    (w : list Request) (out : list string)
  : list Request * list string * cli_result unit :=
  match process_args argvin with
  | Returned (credentials, session_id, operation, identifier, data) =>
      match __init__ SERVER None credentials session_id with
      | Raise e => (w, out, Raised e)
      | Ok ezid =>
          let (st, r) :=
            try_except_HTTPError (main_try srv operation identifier data)
              main_except (mkState ezid w out) in
          (wire st, stdout st, of_result r)
      end
  | UsageExit => (w, out, UsageExit)
  | ValueError => (w, out, ValueError)
  | Raised e => (w, out, Raised e)
  end.

End CLI.

(** The command line of [src/EZID/EZID.py]: the same [process_args]
    over a table without [delete]. *)
Module CLI_urllib2.

Definition operations : list (string * arity) :=
  [("mint", ArgTest odd_count); ("create", ArgTest odd_count);
   ("view", ArgCount 1); ("update", ArgTest odd_count);
   ("login", ArgCount 0); ("logout", ArgCount 0)].

Definition process_args : list string -> cli_result parsed :=
  process_args operations.

End CLI_urllib2.

(** [data = {}] filled by [data[k] = v] for the pairs in order. *)
Definition dict_of_pairs (pairs : dict) : dict :=
  fold_left (fun d kv => dict_set d (fst kv) (snd kv)) pairs [].

(** What [process_args] makes of [args[1]]: user name and password
    around the first colon, or nothing. *)
Definition credentials_of (a1 : string) : option dict :=
  if has_char ":" a1
  then Some [("username", str_before ":" a1); ("password", str_after ":" a1)]
  else None.

Definition arity_holds (ar : arity) (n : Z) : bool :=
  match ar with
  | ArgCount k => (n =? k)%Z
  | ArgTest f => f n
  end.

(** [operation in ["mint", "create", "update"]] *)
Definition takes_data (operation : string) : bool :=
  existsb (String.eqb operation) ["mint"; "create"; "update"].

(** The operations that take label/value pairs have the odd-count test
    in the table [t]. *)
Definition odd_for_data (t : list (string * arity)) : Prop :=
  forall op ar, table_lookup t op = Some ar -> takes_data op = true ->
                ar = ArgTest odd_count.

(** The client [main] builds from [args[1]]: no proxy, no session id,
    the credentials of [args[1]] when it holds a colon. *)
Definition main_client (a1 : string) : EZIDClient :=
  mkClient None
    (mkOpener None
       (if has_char ":" a1
        then Some ("EZID", CLI.SERVER, str_before ":" a1, str_after ":" a1)
        else None))
    CLI.SERVER (credentials_of a1) None None.

(** * Properties *)

(** The doctests of the two functions. *)
Example formatAnvlFromDict_doctest :
  formatAnvlFromDict [("dc.creator", "mer"); ("dc.title", "test title")]
  = "dc.creator: mer" ++ s_LF ++ "dc.title: test title".
Proof. reflexivity. Qed.

Example formatAnvlFromList_doctest :
  formatAnvlFromList ["dc.title"; "test title"; "dc.creator"; "mer"]
  = Ok ("dc.title: test title" ++ s_LF ++ "dc.creator: mer").
Proof. reflexivity. Qed.

Example pct_escape_table :
  pct_escape "%" = "%25" /\ pct_escape ":" = "%3A"
  /\ pct_escape CR = "%0D" /\ pct_escape LF = "%0A".
Proof. repeat split; reflexivity. Qed.

(** ** Facts about the string primitives *)

Section StringFacts.

Lemma append_nil_r (s : string) : s ++ "" = s.
Proof. induction s as [|c s IH]; simpl; [reflexivity | now rewrite IH]. Qed.

Lemma append_assoc (a b c : string) : (a ++ b) ++ c = a ++ (b ++ c).
Proof. induction a as [|x a IH]; simpl; [reflexivity | now rewrite IH]. Qed.

Lemma has_char_app (x : ascii) (a b : string) :
  has_char x (a ++ b) = has_char x a || has_char x b.
Proof.
  induction a as [|c a IH]; simpl; [reflexivity|].
  destruct (Ascii.eqb c x); [reflexivity | exact IH].
Qed.

Lemma split_char_absent (x : ascii) (s : string) :
  has_char x s = false -> split_char x s = [s].
Proof.
  induction s as [|c s IH]; simpl; [reflexivity|].
  destruct (Ascii.eqb c x); [discriminate|].
  intros H. now rewrite (IH H).
Qed.

Lemma split_char_app (x : ascii) (a b : string) :
  has_char x a = false ->
  split_char x (a ++ String x b) = a :: split_char x b.
Proof.
  induction a as [|c a IH]; simpl.
  - intros _. now rewrite Ascii.eqb_refl.
  - destruct (Ascii.eqb c x); [discriminate|].
    intros H. now rewrite (IH H).
Qed.

Lemma split_char_join (l : list string) :
  l <> [] ->
  Forall (fun s => has_char LF s = false) l ->
  split_char LF (str_join s_LF l) = l.
Proof.
  induction l as [|x r IH]; [congruence|].
  intros _ HF. inversion HF as [|? ? Hx Hr]; subst.
  destruct r as [|y r'].
  - simpl. now apply split_char_absent.
  - change (str_join s_LF (x :: y :: r'))
      with (x ++ String LF (str_join s_LF (y :: r'))).
    rewrite split_char_app by exact Hx.
    rewrite IH; [reflexivity | discriminate | exact Hr].
Qed.

Lemma endswith_LF_absent (s : string) :
  has_char LF s = false -> endswith_LF s = false.
Proof.
  induction s as [|c s IH]; [reflexivity|].
  simpl has_char. destruct (Ascii.eqb c LF) eqn:E; [discriminate|].
  intros H. destruct s as [|d s']; [exact E | exact (IH H)].
Qed.

Lemma endswith_LF_app (a b : string) :
  b <> "" -> endswith_LF (a ++ b) = endswith_LF b.
Proof.
  intros Hb. induction a as [|c a IH]; [reflexivity|].
  simpl append. destruct (a ++ b) eqn:E.
  - destruct a; [simpl in E; congruence | discriminate].
  - exact IH.
Qed.

End StringFacts.

(** ** The escaping *)

Section EscapeFacts.
Import AnvlSpec.

(** [%02X] of a code point below 256 is its two hexadecimal digits. *)
Lemma fmt_02X_ord (c : ascii) : fmt_02X (ord c) = two_hex_digits c.
Proof. destruct c as [[] [] [] [] [] [] [] []]; reflexivity. Qed.

Lemma pct_escape_digits (c : ascii) :
  pct_escape c = String "%" (two_hex_digits c).
Proof. unfold pct_escape. now rewrite fmt_02X_ord. Qed.

Lemma in_class_existsb (cls : string) (c : ascii) :
  in_class cls c = existsb (Ascii.eqb c) (list_ascii_of_string cls).
Proof.
  induction cls as [|x cls IH]; simpl; [reflexivity|].
  destruct (Ascii.eqb c x); [reflexivity | exact IH].
Qed.

Lemma re_sub_class_escaped (cls : string) (s : string) :
  re_sub_class cls pct_escape s = escaped (list_ascii_of_string cls) s.
Proof.
  induction s as [|c s IH]; [reflexivity|].
  cbn [re_sub_class escaped].
  rewrite <- in_class_existsb, IH, pct_escape_digits.
  destruct (in_class cls c); reflexivity.
Qed.

Lemma escape_label_escaped (k : string) :
  escape_label k = escaped key_reserved k.
Proof. apply re_sub_class_escaped. Qed.

Lemma escape_value_escaped (v : string) :
  escape_value v = escaped value_reserved v.
Proof. apply re_sub_class_escaped. Qed.

Lemma anvl_line_encoded (kv : string * string) :
  anvl_line kv = encoded_line kv.
Proof.
  unfold anvl_line, encoded_line.
  now rewrite escape_label_escaped, escape_value_escaped.
Qed.

(** The digits of an escape are never one of the reserved characters. *)
Lemma two_hex_digits_clean (x c : ascii) :
  in_class label_class x = true -> has_char x (two_hex_digits c) = false.
Proof.
  intros Hx.
  assert (Hcases : x = "%"%char \/ x = ":"%char \/ x = CR \/ x = LF).
  { unfold label_class in Hx. simpl in Hx.
    destruct (Ascii.eqb_spec x "%"); [now left|].
    destruct (Ascii.eqb_spec x ":"); [now right; left|].
    destruct (Ascii.eqb_spec x CR); [now right; right; left|].
    destruct (Ascii.eqb_spec x LF); [now right; right; right | discriminate]. }
  destruct Hcases as [-> | [-> | [-> | ->]]];
    destruct c as [[] [] [] [] [] [] [] []]; reflexivity.
Qed.

(** A character of the class does not survive the substitution, unless
    it is [%] itself, which every escape starts with. *)
Lemma re_sub_class_removes (cls : string) (x : ascii) (s : string) :
  in_class cls x = true -> in_class label_class x = true ->
  x <> "%"%char ->
  has_char x (re_sub_class cls pct_escape s) = false.
Proof.
  intros Hin Hres Hpct.
  induction s as [|c s IH]; [reflexivity|].
  cbn [re_sub_class].
  destruct (in_class cls c) eqn:Ec.
  - rewrite pct_escape_digits. cbn [append has_char].
    destruct (Ascii.eqb_spec "%"%char x) as [E|_]; [congruence|].
    rewrite has_char_app, IH, orb_false_r.
    now apply two_hex_digits_clean.
  - simpl. destruct (Ascii.eqb_spec c x) as [E|_]; [congruence | exact IH].
Qed.

Lemma escape_label_no_colon (k : string) :
  has_char ":" (escape_label k) = false.
Proof. apply re_sub_class_removes; [reflexivity | reflexivity | discriminate]. Qed.

Lemma escape_label_no_LF (k : string) : has_char LF (escape_label k) = false.
Proof. apply re_sub_class_removes; [reflexivity | reflexivity | discriminate]. Qed.

Lemma escape_value_no_LF (v : string) : has_char LF (escape_value v) = false.
Proof. apply re_sub_class_removes; [reflexivity | reflexivity | discriminate]. Qed.

Lemma anvl_line_no_LF (kv : string * string) :
  has_char LF (anvl_line kv) = false.
Proof.
  unfold anvl_line. cbv zeta.
  now rewrite !has_char_app, escape_label_no_LF, escape_value_no_LF.
Qed.

Lemma anvl_line_not_empty (kv : string * string) : anvl_line kv <> "".
Proof.
  unfold anvl_line. cbv zeta. destruct (escape_label (fst kv)); discriminate.
Qed.

Lemma str_join_lines_end (l : list (string * string)) :
  l <> [] ->
  str_join s_LF (map anvl_line l) <> ""
  /\ endswith_LF (str_join s_LF (map anvl_line l)) = false.
Proof.
  induction l as [|kv r IH]; [congruence|]. intros _.
  destruct r as [|kv' r'].
  - simpl. split; [apply anvl_line_not_empty|].
    apply endswith_LF_absent, anvl_line_no_LF.
  - destruct IH as [IH1 IH2]; [discriminate|].
    set (J := str_join s_LF (map anvl_line (kv' :: r'))) in *.
    change (str_join s_LF (map anvl_line (kv :: kv' :: r')))
      with (anvl_line kv ++ s_LF ++ J).
    split.
    + destruct (anvl_line kv); discriminate.
    + rewrite <- append_assoc, endswith_LF_app by exact IH1. exact IH2.
Qed.

End EscapeFacts.

(** C1. [formatAnvlFromDict] writes one line [key: value] per entry of
    the dict, in the order of the entries: in the key every [%], [:],
    CR and LF, in the value every [%], CR and LF is replaced by [%] and
    the two uppercase hexadecimal digits of its code point, every other
    character is copied.  The lines are joined by a single LF: cutting
    the text at every LF gives the lines back, and the text does not end
    with LF.  The four escapes are [%25], [%3A], [%0D] and [%0A]: the
    entry whose key and value are the four reserved characters is
    written as the line of the last part. *)
Theorem formatAnvlFromDict_lines (d : dict) :
  formatAnvlFromDict d = str_join s_LF (map AnvlSpec.encoded_line d)
  /\ split_char LF (formatAnvlFromDict d)
     = match d with
       | [] => [""]
       | _ :: _ => map AnvlSpec.encoded_line d
       end
  /\ endswith_LF (formatAnvlFromDict d) = false
  /\ (let reserved := String "%" (String ":" (String CR (String LF ""))) in
      formatAnvlFromDict [(reserved, reserved)]
      = "%25%3A%0D%0A: %25:%0D%0A").
Proof.
  unfold formatAnvlFromDict.
  assert (Hmap : map anvl_line d = map AnvlSpec.encoded_line d)
    by (apply map_ext, anvl_line_encoded).
  split; [now rewrite Hmap|]. split; [|split].
  - destruct d as [|kv r]; [reflexivity|].
    rewrite <- Hmap. apply split_char_join; [discriminate|].
    apply Forall_forall. intros s Hs. apply in_map_iff in Hs.
    destruct Hs as [kv' [<- _]]. apply anvl_line_no_LF.
  - destruct d as [|kv r]; [reflexivity|].
    apply str_join_lines_end. discriminate.
  - reflexivity.
Qed.

(** ** Reading a line back *)

Section DecodeFacts.
Import AnvlSpec.

Lemma unescape_pct_escape (c : ascii) (rest : string) :
  unescape (pct_escape c ++ rest) = String c (unescape rest).
Proof. destruct c as [[] [] [] [] [] [] [] []]; reflexivity. Qed.

Lemma unescape_plain (c : ascii) (rest : string) :
  c <> "%"%char -> unescape (String c rest) = String c (unescape rest).
Proof.
  intros Hc. cbn [unescape].
  destruct (Ascii.eqb_spec c "%"); [congruence | reflexivity].
Qed.

Lemma unescape_re_sub_class (cls s : string) :
  in_class cls "%" = true ->
  unescape (re_sub_class cls pct_escape s) = s.
Proof.
  intros Hpct. induction s as [|c s IH]; [reflexivity|].
  cbn [re_sub_class]. destruct (in_class cls c) eqn:Ec.
  - now rewrite unescape_pct_escape, IH.
  - rewrite unescape_plain, IH; [reflexivity | congruence].
Qed.

Lemma split_first_colon_space (a b : string) :
  has_char ":" a = false ->
  split_first ": " (a ++ ": " ++ b) = Some (a, b).
Proof.
  induction a as [|c a IH]; [reflexivity|].
  cbn [has_char]. destruct (Ascii.eqb_spec c ":") as [|Hc]; [discriminate|].
  intros Ha. cbn [append split_first startswith].
  destruct (Ascii.eqb_spec ":"%char c) as [E|_]; [congruence|].
  change (a ++ String ":" (String " " b)) with (a ++ ": " ++ b).
  now rewrite (IH Ha).
Qed.

End DecodeFacts.

(** C2. A single pair of strings, whatever characters the key and the
    value hold, is recovered from the line [formatAnvlFromDict] writes
    for it: cutting the line at its first [": "] and replacing every
    [%XX] by the character with that hexadecimal code gives the key and
    the value back. *)
Theorem anvl_pair_roundtrip (k v : string) :
  AnvlSpec.decode_line (formatAnvlFromDict [(k, v)]) = Some (k, v).
Proof.
  unfold formatAnvlFromDict, AnvlSpec.decode_line. cbn [map str_join].
  unfold anvl_line. cbn [fst snd].
  rewrite split_first_colon_space by apply escape_label_no_colon.
  unfold escape_label, escape_value.
  now rewrite !unescape_re_sub_class by reflexivity.
Qed.

(** ** [formatAnvlFromList] *)

Section ListFacts.
Local Open Scope list_scope.
Local Open Scope nat_scope.

Lemma anvl_list_loop_spec (l : list string) :
  forall fuel pre rest acc,
    l = pre ++ rest -> List.length rest <= fuel ->
    anvl_list_loop l (range2_fuel fuel (List.length pre) (List.length l)) acc
    = if Nat.even (List.length rest)
      then Ok (acc ++ map anvl_line (pair_up rest))
      else Raise IndexError.
Proof.
  induction fuel as [|fuel IH]; intros pre rest acc Hl Hfuel.
  - destruct rest; [|simpl in Hfuel; lia].
    simpl. now rewrite app_nil_r.
  - cbn [range2_fuel].
    destruct rest as [|x rest].
    + replace (List.length pre <? List.length l) with false.
      * simpl. now rewrite app_nil_r.
      * symmetry. apply Nat.ltb_ge. subst l. rewrite app_nil_r. lia.
    + replace (List.length pre <? List.length l) with true.
      2:{ symmetry. apply Nat.ltb_lt. subst l. rewrite length_app. simpl. lia. }
      cbn [anvl_list_loop]. unfold list_index.
      assert (H0 : nth_error l (List.length pre) = Some x).
      { subst l. rewrite nth_error_app2 by lia.
        now rewrite Nat.sub_diag. }
      rewrite H0.
      destruct rest as [|y rest].
      * assert (H1 : nth_error l (List.length pre + 1) = None).
        { apply nth_error_None. subst l. rewrite length_app. simpl. lia. }
        now rewrite H1.
      * assert (H1 : nth_error l (List.length pre + 1) = Some y).
        { subst l. rewrite nth_error_app2 by lia.
          replace (List.length pre + 1 - List.length pre) with 1 by lia.
          reflexivity. }
        rewrite H1.
        replace (List.length pre + 2) with (List.length (pre ++ [x; y]))
          by (rewrite length_app; simpl; lia).
        rewrite (IH (pre ++ [x; y]) rest).
        -- cbn [List.length Nat.even pair_up map].
           destruct (Nat.even (List.length rest)); [|reflexivity].
           now rewrite <- app_assoc.
        -- subst l. now rewrite <- app_assoc.
        -- simpl in Hfuel. lia.
Qed.

End ListFacts.

(** C9. [formatAnvlFromList] reads [l[i]] and [l[i+1]] for
    [i = 0, 2, 4, ...] below [len(l)] and checks nothing before: on a
    list of odd length the last [l[i+1]] is out of range and the call
    ends with [IndexError]; on a list of even length, and only there,
    it returns, with the lines of the consecutive pairs. *)
Theorem formatAnvlFromList_even_only (l : list string) :
  formatAnvlFromList l
  = if Nat.odd (List.length l)
    then Raise IndexError
    else Ok (formatAnvlFromDict (pair_up l)).
Proof.
  unfold formatAnvlFromList, range2, formatAnvlFromDict.
  change (range2_fuel (List.length l) 0 (List.length l))
    with (range2_fuel (List.length l) (@List.length string []) (List.length l)).
  rewrite (anvl_list_loop_spec l (List.length l) [] l []) by (reflexivity || lia).
  unfold Nat.odd. destruct (Nat.even (List.length l)); reflexivity.
Qed.

(** ** Counting the requests of an operation *)

Section Wire.
Local Open Scope list_scope.
Local Open Scope nat_scope.

Lemma sends_weaken {A} (n p : nat) (m : M A) :
  n <= p -> sends_at_most n m -> sends_at_most p m.
Proof.
  intros Hle H st. destruct (H st) as [l [E Hl]]. exists l. split; [exact E | lia].
Qed.

Lemma sends_ret {A} (n : nat) (a : A) : sends_at_most n (ret a).
Proof. intros st. exists []. simpl. rewrite app_nil_r. split; [reflexivity | lia]. Qed.

Lemma sends_raise {A} (n : nat) (e : exn) : sends_at_most n (@raise A e).
Proof. intros st. exists []. simpl. rewrite app_nil_r. split; [reflexivity | lia]. Qed.

Lemma sends_lift {A} (n : nat) (r : result A) : sends_at_most n (lift r).
Proof. intros st. exists []. simpl. rewrite app_nil_r. split; [reflexivity | lia]. Qed.

Lemma sends_get_self (n : nat) : sends_at_most n get_self.
Proof. intros st. exists []. simpl. rewrite app_nil_r. split; [reflexivity | lia]. Qed.

Lemma sends_print (n : nat) (s : string) : sends_at_most n (print s).
Proof. intros st. exists []. simpl. rewrite app_nil_r. split; [reflexivity | lia]. Qed.

Lemma sends_set_session_id (n : nat) (sid : option string) :
  sends_at_most n (set_session_id sid).
Proof. intros st. exists []. simpl. rewrite app_nil_r. split; [reflexivity | lia]. Qed.

Lemma sends_send (n : nat) (srv : Server) (r : Request) :
  sends_at_most (S n) (send srv r).
Proof. intros st. exists [r]. simpl. split; [reflexivity | lia]. Qed.

Lemma sends_bind {A B} (n k : nat) (m : M A) (f : A -> M B) :
  sends_at_most n m -> (forall a, sends_at_most k (f a)) ->
  sends_at_most (n + k) (bind m f).
Proof.
  intros Hm Hf st. unfold bind.
  destruct (Hm st) as [l [E Hl]].
  destruct (m st) as [st1 [a|e]]; simpl in E.
  - destruct (Hf a st1) as [l' [E' Hl']].
    exists (l ++ l'). rewrite E', E, app_assoc, length_app. split; [reflexivity | lia].
  - exists l. simpl. split; [exact E | lia].
Qed.

Lemma sends_bind0 {A B} (k : nat) (m : M A) (f : A -> M B) :
  sends_at_most 0 m -> (forall a, sends_at_most k (f a)) ->
  sends_at_most k (bind m f).
Proof. intros Hm Hf. exact (sends_bind 0 k m f Hm Hf). Qed.

Lemma sends_bind1 {A B} (k : nat) (m : M A) (f : A -> M B) :
  sends_at_most 1 m -> (forall a, sends_at_most k (f a)) ->
  sends_at_most (S k) (bind m f).
Proof. intros Hm Hf. exact (sends_bind 1 k m f Hm Hf). Qed.

Lemma sends_bind_r {A B} (n : nat) (m : M A) (f : A -> M B) :
  sends_at_most n m -> (forall a, sends_at_most 0 (f a)) ->
  sends_at_most n (bind m f).
Proof.
  intros Hm Hf. apply (sends_weaken (n + 0) n); [lia|].
  exact (sends_bind n 0 m f Hm Hf).
Qed.

Lemma sends_try {A} (n : nat) (m : M A) (h : exn -> M A) :
  sends_at_most n m -> (forall e, sends_at_most 0 (h e)) ->
  sends_at_most n (try_except_HTTPError m h).
Proof.
  intros Hm Hh st. unfold try_except_HTTPError.
  destruct (Hm st) as [l [E Hl]].
  destruct (m st) as [st1 [a|e]]; simpl in E; [exists l; now split|].
  destruct e; try (exists l; now split).
  destruct (Hh (HTTPError code msg body) st1) as [l' [E' Hl']].
  exists (l ++ l'). rewrite E', E, app_assoc, length_app. split; [reflexivity | lia].
Qed.

End Wire.

Create HintDb sends.

#[local] Hint Resolve sends_ret sends_raise sends_lift sends_get_self
  sends_print sends_set_session_id sends_send : sends.

Ltac sends :=
  intros;
  first
    [ solve [auto with sends]
    | apply sends_try; [solve [sends] | solve [sends]]
    | apply sends_bind0; [solve [sends] | solve [sends]]
    | apply sends_bind1; [solve [sends] | solve [sends]]
    | apply sends_bind_r; [solve [sends] | solve [sends]]
    | match goal with
      | |- sends_at_most _ (if ?c then _ else _) => destruct c; solve [sends]
      | |- sends_at_most _ (match ?x with _ => _ end) => destruct x; solve [sends]
      end ].

Section WireOfOperations.
Variable srv : Server.

Lemma sends_opener_open (n : nat) (r : Request) :
  sends_at_most (S n) (EZID.opener_open srv r).
Proof. unfold EZID.opener_open. sends. Qed.
Hint Resolve sends_opener_open : sends.

Lemma sends_get_request (n : nat) (r : Request) (b : bool) :
  sends_at_most (S n) (EZID._get_request srv r b).
Proof. unfold EZID._get_request. sends. Qed.
Hint Resolve sends_get_request : sends.

Lemma sends_raise_for_status (n : nat) (r : Response) :
  sends_at_most n (EZID.raise_for_status r).
Proof. unfold EZID.raise_for_status. sends. Qed.
Hint Resolve sends_raise_for_status : sends.

Lemma sends_login (n : nat) : sends_at_most (S n) (EZID.login srv).
Proof. unfold EZID.login. sends. Qed.
Hint Resolve sends_login : sends.

Lemma sends_logout (n : nat) : sends_at_most (S n) (EZID.logout srv).
Proof. unfold EZID.logout. sends. Qed.

Lemma sends_view (n : nat) (i : string) : sends_at_most (S n) (EZID.view srv i).
Proof. unfold EZID.view. sends. Qed.

Lemma sends_login_if_no_session (n : nat) :
  sends_at_most (S n) (EZID.login_if_no_session srv).
Proof. unfold EZID.login_if_no_session. sends. Qed.
Hint Resolve sends_login_if_no_session : sends.

Lemma sends_update (n : nat) (i : string) (d : dict) :
  sends_at_most (S (S n)) (EZID.update srv i d).
Proof. unfold EZID.update. sends. Qed.

Lemma sends_create (n : nat) (i : string) (d : option dict) :
  sends_at_most (S (S n)) (EZID.create srv i d).
Proof. unfold EZID.create. sends. Qed.

Lemma sends_mint (n : nat) (i : string) (d : option dict) :
  sends_at_most (S (S n)) (EZID.mint srv i d).
Proof. unfold EZID.mint. sends. Qed.

Lemma sends_delete (n : nat) (i : string) :
  sends_at_most (S (S n)) (EZID.delete srv i).
Proof. unfold EZID.delete. sends. Qed.

Lemma sends_perform (o : operation) :
  sends_at_most (if mutating o then 2 else 1) (perform srv o).
Proof.
  pose proof sends_logout. pose proof sends_view. pose proof sends_update.
  pose proof sends_create. pose proof sends_mint. pose proof sends_delete.
  destruct o; cbn [mutating perform]; sends.
Qed.

End WireOfOperations.

(** ** The session id and the cookie *)

Section SessionFacts.
Variable srv : Server.
Local Open Scope list_scope.

Lemma append_inv_head (a b c : string) : (a ++ b = a ++ c)%string -> b = c.
Proof.
  induction a as [|x a IH]; simpl; [tauto|].
  intros H. injection H as H. exact (IH H).
Qed.

Lemma opt_truthy_Some (s : string) : opt_truthy (Some s) = true <-> s <> "".
Proof. destruct s; simpl; split; congruence. Qed.

(** The setter, in its two cases. *)
Lemma set_session_id_truthy (st : State) (s : string) :
  s <> "" ->
  set_session_id (Some s) st
  = (mkState (mkClient (_proxy (self st)) (_opener (self st))
                (_server (self st)) (_credentials (self st))
                (Some s) (Some ("sessionid=" ++ s)%string))
             (wire st) (stdout st), Ok tt).
Proof.
  intros Hs. unfold set_session_id. cbn [_session_id].
  destruct s; [congruence | reflexivity].
Qed.

Lemma set_session_id_falsy (st : State) (sid : option string) :
  opt_truthy sid = false ->
  set_session_id sid st
  = (mkState (mkClient (_proxy (self st)) (_opener (self st))
                (_server (self st)) (_credentials (self st))
                sid (_cookie (self st)))
             (wire st) (stdout st), Ok tt).
Proof. intros H. unfold set_session_id. cbn [_session_id]. now rewrite H. Qed.

(** Whatever is assigned, the state after the setter has the cookie of
    its session id. *)
Lemma set_session_id_derived (st : State) (sid : option string) :
  cookie_derived (self st) \/ opt_truthy sid = true ->
  cookie_derived (self (fst (set_session_id sid st))).
Proof.
  intros H s Hs Hne. unfold set_session_id in *.
  cbn [_session_id] in *.
  destruct (opt_truthy sid) eqn:E; cbn [fst self _session_id _cookie] in *.
  - subst sid. reflexivity.
  - subst sid. apply opt_truthy_Some in Hne. congruence.
Qed.

(** One request through [_get_request]: the request goes out once, with
    the cookie when there is one; a status in 200..299 gives the body, any
    other status prints the body (the [repr] of its bytes) and raises
    [HTTPError], whose stream has been read by then. *)
Lemma get_request_once (request : Request) (st : State) :
  EZID._get_request srv request false st
  = let r := with_cookie (self st) request in
    let c := srv (wire st) r in
    if ((200 <=? status_code c) && (status_code c <? 300))%Z
    then (mkState (self st) (wire st ++ [r]) (stdout st), Ok (content c))
    else (mkState (self st) (wire st ++ [r])
                  (stdout st ++ [bytes_repr (utf8 (content c))]),
          Raise (HTTPError (status_code c) (reason c) "")).
Proof.
  unfold EZID._get_request, EZID.opener_open, try_except_HTTPError, bind,
    get_self, send, print, ret, raise.
  cbv zeta. cbn [self wire stdout].
  destruct ((200 <=? status_code (srv (wire st) (with_cookie (self st) request)))
            && (status_code (srv (wire st) (with_cookie (self st) request)) <? 300))%Z;
    reflexivity.
Qed.

Lemma get_request_wire (request : Request) (st : State) :
  wire (fst (EZID._get_request srv request false st))
  = wire st ++ [with_cookie (self st) request]
  /\ self (fst (EZID._get_request srv request false st)) = self st.
Proof.
  rewrite get_request_once. cbv zeta.
  destruct (_ && _)%bool; split; reflexivity.
Qed.

(** [login] sends its one request whatever the answer is. *)
Lemma login_wire (st : State) :
  wire (fst (EZID.login srv st)) = wire st ++ [EZID.login_request (self st)].
Proof.
  unfold EZID.login, EZID.raise_for_status, bind, get_self, send, ret, raise, lift.
  cbn [self wire stdout].
  destruct (_ && _)%bool; [reflexivity|].
  destruct (set_cookie _); [|reflexivity].
  destruct (cookie_value _); [|reflexivity].
  unfold set_session_id. cbn [self wire stdout fst]. reflexivity.
Qed.

(** A login the service rejects with a status in 400..599. *)
Lemma login_rejected (st : State) :
  let res := srv (wire st) (EZID.login_request (self st)) in
  (400 <= status_code res < 600)%Z ->
  EZID.login srv st
  = (mkState (self st) (wire st ++ [EZID.login_request (self st)]) (stdout st),
     Raise (RequestsHTTPError (status_code res) (reason res) (content res))).
Proof.
  intros res Hres.
  unfold EZID.login, EZID.raise_for_status, bind, get_self, send, ret, raise.
  cbn [self wire stdout]. fold res.
  replace ((400 <=? status_code res) && (status_code res <? 600))%Z with true;
    [reflexivity|].
  symmetry. apply andb_true_iff. split; [apply Z.leb_le | apply Z.ltb_lt]; lia.
Qed.

Lemma bind_wire_suffix {A B} (n : nat) (m : M A) (k : A -> M B) (st : State) :
  (forall a, sends_at_most n (k a)) ->
  exists l, wire (fst (bind m k st)) = wire (fst (m st)) ++ l.
Proof.
  intros Hk. unfold bind. destruct (m st) as [st1 [a|e]].
  - destruct (Hk a st1) as [l [E _]]. exists l. exact E.
  - exists []. simpl. now rewrite app_nil_r.
Qed.

Lemma first_request_bind {A B} (n : nat) (m : M A) (k : A -> M B)
    (st : State) (r : Request) :
  (exists l, wire (fst (m st)) = wire st ++ r :: l) ->
  (forall a, sends_at_most n (k a)) ->
  exists l, wire (fst (bind m k st)) = wire st ++ r :: l.
Proof.
  intros [l E] Hk.
  destruct (bind_wire_suffix n m k st Hk) as [l' E'].
  exists (l ++ l'). rewrite E', E, <- app_assoc. reflexivity.
Qed.

Lemma login_if_no_session_cached (st : State) :
  opt_truthy (_session_id (self st)) = true ->
  EZID.login_if_no_session srv st = (st, Ok tt).
Proof.
  intros H. unfold EZID.login_if_no_session, bind, get_self.
  now rewrite H.
Qed.

Lemma login_if_no_session_first (st : State) :
  opt_truthy (_session_id (self st)) = false ->
  exists l, wire (fst (EZID.login_if_no_session srv st))
            = wire st ++ EZID.login_request (self st) :: l.
Proof.
  intros H. unfold EZID.login_if_no_session.
  unfold bind at 1. unfold get_self at 1. rewrite H. cbn [negb].
  apply (first_request_bind 0).
  - exists []. apply login_wire.
  - intros a. apply sends_set_session_id.
Qed.

Lemma login_if_no_session_rejected (st : State) :
  opt_truthy (_session_id (self st)) = false ->
  let res := srv (wire st) (EZID.login_request (self st)) in
  (400 <= status_code res < 600)%Z ->
  EZID.login_if_no_session srv st
  = (mkState (self st) (wire st ++ [EZID.login_request (self st)]) (stdout st),
     Raise (RequestsHTTPError (status_code res) (reason res) (content res))).
Proof.
  intros H res Hres. unfold EZID.login_if_no_session.
  unfold bind at 1. unfold get_self at 1. rewrite H. cbn [negb].
  unfold bind. now rewrite login_rejected.
Qed.

End SessionFacts.

(** ** The mutating operations *)

Section Mutating.
Variable srv : Server.
Local Open Scope list_scope.

(** The request a mutating operation sends after the session check is
    not the login request: its path is [/id/...] or [/shoulder/...]. *)
Lemma not_login_url (server rest : string) (tail : string) :
  (tail = "/id/" ++ rest \/ tail = "/shoulder/" ++ rest)%string ->
  (server ++ tail <> server ++ "/" ++ "login")%string.
Proof.
  intros Ht E. apply append_inv_head in E.
  destruct Ht as [-> | ->]; discriminate.
Qed.

Lemma with_cookie_url (c : EZIDClient) (r : Request) :
  req_url (with_cookie c r) = req_url r.
Proof. unfold with_cookie. destruct (opt_truthy (_cookie c)); reflexivity. Qed.

Lemma with_cookie_derived (c : EZIDClient) (r : Request) (s : string) :
  cookie_derived c -> _session_id c = Some s -> s <> "" ->
  In ("Cookie", ("sessionid=" ++ s)%string) (req_headers (with_cookie c r)).
Proof.
  intros Hd Hs Hne. unfold with_cookie. rewrite (Hd s Hs Hne).
  cbn. apply in_or_app. right. now left.
Qed.

(** With a session id cached, a mutating operation is its one request. *)
Lemma mutating_cached (o : operation) (st : State) :
  mutating o = true ->
  opt_truthy (_session_id (self st)) = true ->
  exists request,
    wire (fst (perform srv o st)) = wire st ++ [with_cookie (self st) request]
    /\ self (fst (perform srv o st)) = self st
    /\ req_url request <> req_url (EZID.login_request (self st)).
Proof.
  intros Hm Hs.
  destruct o as [| |i|i d|i d|sh d|i]; try discriminate Hm;
    cbn [perform];
    unfold EZID.update, EZID.create, EZID.mint, EZID.delete;
    unfold bind, get_self, ret;
    rewrite (login_if_no_session_cached srv st Hs); cbv zeta;
    match goal with
    | |- context [EZID._get_request srv ?r false st] =>
        exists r; destruct (get_request_wire srv r st) as [Hw Hc];
        destruct (EZID._get_request srv r false st) as [st1 [x|e]];
        cbn [fst] in *; (split; [exact Hw | split; [exact Hc|]])
    end;
    repeat match goal with
           | |- context [match ?x with _ => _ end] => destruct x
           end;
    cbn [req_url with_data add_header urllib_Request EZID.login_request];
    eapply not_login_url; eauto.
Qed.

End Mutating.

(** C6. With a session id cached (one that counts as true, with the
    cookie the setter derives from it), each of [mint], [create],
    [update] and [delete] sends exactly one request: it carries the
    header [Cookie: sessionid=<that id>], it is not addressed to the
    login URL, and the client object is left as it was.  When no session
    id is cached, the first request of the operation is the login
    request.  So an implicit login happens exactly when no session id is
    cached. *)
Theorem mutating_reuses_session (srv : Server) (o : operation) (st : State) :
  mutating o = true ->
  cookie_derived (self st) ->
  if opt_truthy (_session_id (self st))
  then exists r,
      wire (fst (perform srv o st)) = (wire st ++ [r])%list
      /\ req_url r <> req_url (EZID.login_request (self st))
      /\ (forall s, _session_id (self st) = Some s ->
                    In ("Cookie", "sessionid=" ++ s) (req_headers r))
      /\ self (fst (perform srv o st)) = self st
  else exists rest,
      wire (fst (perform srv o st))
      = (wire st ++ EZID.login_request (self st) :: rest)%list.
Proof.
  intros Hm Hd. destruct (opt_truthy (_session_id (self st))) eqn:Hs.
  - destruct (mutating_cached srv o st Hm Hs) as [request [Hw [Hc Hu]]].
    exists (with_cookie (self st) request). repeat split.
    + exact Hw.
    + now rewrite with_cookie_url.
    + intros s E. apply with_cookie_derived; [exact Hd | exact E|].
      rewrite E in Hs. now apply opt_truthy_Some.
    + exact Hc.
  - pose proof (sends_get_request srv) as Hg.
    destruct o as [| |i|i d|i d|sh d|i]; try discriminate Hm; cbn [perform];
      unfold EZID.update, EZID.create, EZID.mint, EZID.delete;
      (apply (first_request_bind 0); [|intros; apply sends_ret]);
      (apply (first_request_bind 1);
       [apply login_if_no_session_first; exact Hs | intros; sends]).
Qed.

Lemma with_session_derived :
  cookie_derived (self (Scenario.start Scenario.with_session)).
Proof. intros s E _. injection E as <-. reflexivity. Defined.

Lemma mutating_reuses_session_witness :
  mutating (Update "ark:/99999/fk412345" [("dc.title", "t")]) = true
  /\ cookie_derived (self (Scenario.start Scenario.with_session))
  /\ exists r,
      wire (fst (perform Scenario.ezid_server
                   (Update "ark:/99999/fk412345" [("dc.title", "t")])
                   (Scenario.start Scenario.with_session)))
      = ([] ++ [r])%list
      /\ req_url r <> "https://ezid.cdlib.org/login"
      /\ (forall s, Some "abc123" = Some s ->
                    In ("Cookie", "sessionid=" ++ s) (req_headers r))
      /\ self (fst (perform Scenario.ezid_server
                      (Update "ark:/99999/fk412345" [("dc.title", "t")])
                      (Scenario.start Scenario.with_session)))
         = Scenario.with_session.
Proof.
  split; [reflexivity|]. split; [exact with_session_derived|].
  exact (mutating_reuses_session Scenario.ezid_server
           (Update "ark:/99999/fk412345" [("dc.title", "t")])
           (Scenario.start Scenario.with_session)
           eq_refl with_session_derived).
Defined.

(** The derived cookie holds for a new client and is kept by every
    operation, so it holds in every state a caller can reach. *)
Lemma init_cookie_derived (server : string) (proxy credentials : option dict)
    (session_id : option string) (c : EZIDClient) :
  __init__ server proxy credentials session_id = Ok c -> cookie_derived c.
Proof.
  unfold __init__. intros H s Hs Hne.
  assert (E : _session_id c = session_id /\
              _cookie c = if opt_truthy session_id
                          then Some ("sessionid=" ++
                                     match session_id with Some x => x | None => "" end)
                          else None).
  { destruct (dict_truthy credentials).
    - destruct (dict_item _ "username"); [|discriminate].
      destruct (dict_item _ "password"); [|discriminate].
      injection H as <-. split; reflexivity.
    - injection H as <-. split; reflexivity. }
  destruct E as [E1 E2]. rewrite E2, <- E1, Hs.
  apply opt_truthy_Some in Hne. now rewrite Hne.
Qed.

(** C4 (as the code has it). A mutating operation on a client with no
    session id and no credentials starts with the login request, sent
    without credentials; there is no check on the client's side.  When
    the service rejects that request with a status in 400..599, the
    operation ends with the HTTP error of the login (status, reason and
    body), the request of the operation itself is never sent, and the
    client object is unchanged. *)
Theorem no_credentials_login_rejected (srv : Server) (o : operation)
    (st : State) :
  mutating o = true ->
  opt_truthy (_session_id (self st)) = false ->
  dict_truthy (_credentials (self st)) = false ->
  (400 <= status_code (srv (wire st) (EZID.login_request (self st))) < 600)%Z ->
  let res := srv (wire st) (EZID.login_request (self st)) in
  req_auth (EZID.login_request (self st)) = None
  /\ perform srv o st
     = (mkState (self st) (wire st ++ [EZID.login_request (self st)])%list
                (stdout st),
        Raise (RequestsHTTPError (status_code res) (reason res) (content res))).
Proof.
  intros Hm Hs Hc Hres res. split.
  - unfold EZID.login_request. now rewrite Hc.
  - destruct o as [| |i|i d|i d|sh d|i]; try discriminate Hm; cbn [perform];
      unfold EZID.update, EZID.create, EZID.mint, EZID.delete;
      unfold bind;
      now rewrite (login_if_no_session_rejected srv st Hs Hres).
Qed.

Lemma no_credentials_login_rejected_witness :
  mutating (Mint "ark:/99999/fk4" None) = true
  /\ perform Scenario.ezid_server (Mint "ark:/99999/fk4" None)
       (Scenario.start Scenario.anonymous)
     = (mkState Scenario.anonymous
          [mkRequest "GET" "https://ezid.cdlib.org/login" [] None None] [],
        Raise (RequestsHTTPError 401 "UNAUTHORIZED"
                 ("error: unauthorized" ++ s_LF))).
Proof.
  split; [reflexivity|].
  refine (proj2 (no_credentials_login_rejected Scenario.ezid_server
                   (Mint "ark:/99999/fk4" None)
                   (Scenario.start Scenario.anonymous)
                   eq_refl eq_refl eq_refl _)).
  change (400 <= 401 < 600)%Z. lia.
Defined.

(** C4 as it is worded fails: nothing on the client's side stops the
    operation.  A client with no session id and no credentials mints an
    identifier at a service that answers the login without asking for
    credentials: the login request and the mint request both go out and
    no exception is raised. *)
Lemma no_credentials_can_succeed :
  _session_id Scenario.anonymous = None
  /\ _credentials Scenario.anonymous = None
  /\ EZID.mint Scenario.open_server "ark:/99999/fk4" None
       (Scenario.start Scenario.anonymous)
     = (mkState
          (mkClient None (mkOpener None None) "https://ezid.cdlib.org" None
             (Some "abc123") (Some "sessionid=abc123"))
          [mkRequest "GET" "https://ezid.cdlib.org/login" [] None None;
           mkRequest "POST" "https://ezid.cdlib.org/shoulder/ark:/99999/fk4"
             [("Cookie", "sessionid=abc123")] None None]
          [],
        Ok "ark:/99999/fk412345").
Proof. repeat split. Qed.

(** C10. Assigning [None] or the empty string to [session_id] stores
    the value and leaves the cookie string as it was: the state then has
    a cookie that is not made from its session id, and the next request
    through [_get_request] (of either client) still carries the old
    [Cookie] header. *)
Theorem falsy_session_id_keeps_cookie (srv : Server) (accepts : Z -> bool)
    (st : State) (sid : option string) (k : string) (request : Request) :
  opt_truthy sid = false ->
  _cookie (self st) = Some k -> k <> "" ->
  let st1 := fst (set_session_id sid st) in
  _session_id (self st1) = sid
  /\ _cookie (self st1) = Some k
  /\ wire (fst (EZID._get_request srv request false st1))
     = (wire st ++ [add_header "Cookie" k request])%list
  /\ wire (fst (EZID_urllib2._get_request srv accepts request false st1))
     = (wire st ++ [add_header "Cookie" k request])%list.
Proof.
  intros Hsid Hk Hne st1.
  assert (E : st1 = mkState (mkClient (_proxy (self st)) (_opener (self st))
                (_server (self st)) (_credentials (self st)) sid (Some k))
                (wire st) (stdout st)).
  { unfold st1. now rewrite set_session_id_falsy, Hk. }
  assert (Hw : forall c, _cookie c = Some k ->
                         with_cookie c request = add_header "Cookie" k request).
  { intros c Hc. unfold with_cookie. rewrite Hc. cbn.
    destruct k; [congruence | reflexivity]. }
  rewrite E. cbn [self _session_id _cookie]. repeat split.
  - destruct (get_request_wire srv request
                (mkState (mkClient (_proxy (self st)) (_opener (self st))
                   (_server (self st)) (_credentials (self st)) sid (Some k))
                   (wire st) (stdout st))) as [H _].
    rewrite H. cbn [wire self]. now rewrite Hw.
  - unfold EZID_urllib2._get_request, EZID_urllib2.opener_open, bind, get_self,
      send, lift. cbn [self wire stdout]. rewrite Hw by reflexivity.
    destruct (EZID_urllib2.http_response _ _); reflexivity.
Qed.

Lemma falsy_session_id_keeps_cookie_witness :
  opt_truthy None = false
  /\ _cookie Scenario.with_session = Some "sessionid=abc123"
  /\ _session_id
       (self (fst (set_session_id None (Scenario.start Scenario.with_session))))
     = None
  /\ _cookie
       (self (fst (set_session_id None (Scenario.start Scenario.with_session))))
     = Some "sessionid=abc123"
  /\ wire (fst (EZID._get_request Scenario.ezid_server
                  (urllib_Request "GET" "https://ezid.cdlib.org/id/ark:/99999/fk4")
                  false
                  (fst (set_session_id None
                          (Scenario.start Scenario.with_session)))))
     = [mkRequest "GET" "https://ezid.cdlib.org/id/ark:/99999/fk4"
          [("Cookie", "sessionid=abc123")] None None].
Proof.
  split; [reflexivity|]. split; [reflexivity|].
  destruct (falsy_session_id_keeps_cookie Scenario.ezid_server (fun _ => true)
              (Scenario.start Scenario.with_session) None "sessionid=abc123"
              (urllib_Request "GET" "https://ezid.cdlib.org/id/ark:/99999/fk4")
              eq_refl eq_refl ltac:(discriminate)) as [H1 [H2 [H3 _]]].
  exact (conj H1 (conj H2 H3)).
Defined.

(** ** [mint]: what is taken out of the body *)

Section MintFacts.

Lemma replace_from_absent (old new s : string) :
  occurs old s = false -> replace_from old new 0 s = s.
Proof.
  induction s as [|c s IH]; [reflexivity|].
  cbn [occurs replace_from].
  destruct (startswith old (String c s)); [discriminate|].
  intros H. now rewrite (IH H).
Qed.

Lemma replace_success_prefix (rest : string) :
  replace "success: " "" ("success: " ++ rest) = replace "success: " "" rest.
Proof. reflexivity. Qed.

(** When ["success: "] is the leading prefix and occurs nowhere else,
    only the prefix and the surrounding whitespace go. *)
Lemma mint_transform_leading (sp : ascii -> bool) (rest : string) :
  occurs "success: " rest = false ->
  strip sp (replace "success: " "" ("success: " ++ rest)) = strip sp rest.
Proof.
  intros H. rewrite replace_success_prefix. unfold replace.
  now rewrite replace_from_absent.
Qed.

(** What [mint] returns when a session id is cached and the service
    answers with a status in 200..299. *)
Lemma mint_cached_result (srv : Server) (shoulder : string) (st : State) :
  opt_truthy (_session_id (self st)) = true ->
  let c := srv (wire st)
             (with_cookie (self st)
                (urllib_Request "POST"
                   (_server (self st) ++ "/shoulder/" ++ shoulder))) in
  ((200 <=? status_code c) && (status_code c <? 300))%Z = true ->
  snd (EZID.mint srv shoulder None st)
  = Ok (strip isspace3 (replace "success: " "" (content c))).
Proof.
  intros Hs c Hc. unfold EZID.mint, bind, get_self, ret.
  rewrite (login_if_no_session_cached srv st Hs).
  rewrite get_request_once. cbv zeta. fold c. now rewrite Hc.
Qed.

End MintFacts.

(** C3. For the body ["success: ark:/99999/fk412345\n"] both clients
    return ["ark:/99999/fk412345"].  But [mint] takes ["success: "] out
    with [replace], which removes every occurrence: from the body
    ["success: ark:/99999/fk4/success: x\n"] the result is
    ["ark:/99999/fk4/x"], so text other than the leading prefix and the
    surrounding whitespace is removed. *)
Theorem mint_removes_inner_occurrence :
  snd (EZID.mint Scenario.ezid_server "ark:/99999/fk4" None
         (Scenario.start Scenario.with_session))
  = Ok "ark:/99999/fk412345"
  /\ snd (EZID_urllib2.mint Scenario.ezid_server (fun _ => true)
            "ark:/99999/fk4" None (Scenario.start Scenario.with_session))
     = Ok "ark:/99999/fk412345"
  /\ content (Scenario.echo_server []
                (mkRequest "POST" "https://ezid.cdlib.org/shoulder/ark:/99999/fk4"
                   [("Cookie", "sessionid=abc123")] None None))
     = "success: ark:/99999/fk4/success: x" ++ s_LF
  /\ snd (EZID.mint Scenario.echo_server "ark:/99999/fk4" None
            (Scenario.start Scenario.with_session))
     = Ok "ark:/99999/fk4/x"
  /\ snd (EZID_urllib2.mint Scenario.echo_server (fun _ => true)
            "ark:/99999/fk4" None (Scenario.start Scenario.with_session))
     = Ok "ark:/99999/fk4/x".
Proof. repeat split. Qed.

(** ** [login]: the value taken from [Set-Cookie] *)

Section CookieFacts.
Local Open Scope list_scope.

(** A value without [=] and [;] is extracted whole. *)
Lemma cookie_value_plain (name v rest : string) :
  has_char "=" name = false -> has_char ";" name = false ->
  has_char "=" v = false -> has_char ";" v = false ->
  cookie_value (name ++ "=" ++ v ++ ";" ++ rest)%string = Ok v.
Proof.
  intros Hn1 Hn2 Hv1 Hv2. unfold cookie_value.
  replace (name ++ "=" ++ v ++ ";" ++ rest)%string
    with ((name ++ "=" ++ v) ++ String ";" rest)%string
    by (now rewrite !append_assoc).
  rewrite split_char_app.
  2:{ rewrite !has_char_app, Hn2, Hv2. reflexivity. }
  cbn [list_index nth_error].
  change (name ++ "=" ++ v)%string with (name ++ String "=" v)%string.
  rewrite split_char_app by exact Hn1.
  rewrite split_char_absent by exact Hv1. reflexivity.
Qed.

(** A value with [=] in it is cut at its first [=]. *)
Lemma cookie_value_cut (name v w rest : string) :
  has_char "=" name = false -> has_char ";" name = false ->
  has_char "=" v = false -> has_char ";" v = false -> has_char ";" w = false ->
  cookie_value (name ++ "=" ++ (v ++ "=" ++ w) ++ ";" ++ rest)%string = Ok v.
Proof.
  intros Hn1 Hn2 Hv1 Hv2 Hw. unfold cookie_value.
  replace (name ++ "=" ++ (v ++ "=" ++ w) ++ ";" ++ rest)%string
    with ((name ++ "=" ++ v ++ "=" ++ w) ++ String ";" rest)%string
    by (now rewrite !append_assoc).
  rewrite split_char_app.
  2:{ rewrite !has_char_app, Hn2, Hv2, Hw. reflexivity. }
  cbn [list_index nth_error].
  change (name ++ "=" ++ v ++ "=" ++ w)%string
    with (name ++ String "=" (v ++ String "=" w))%string.
  rewrite split_char_app by exact Hn1.
  rewrite split_char_app by exact Hv1. reflexivity.
Qed.

(** [login] of [src/EZID.py] on a header [sessionid=<value>; ...] whose
    value has no [=]: the value is returned and cached. *)
Lemma login_extracts_plain_value (srv : Server) (st : State) (v rest : string) :
  let res := srv (wire st) (EZID.login_request (self st)) in
  ((400 <=? status_code res) && (status_code res <? 600))%Z = false ->
  set_cookie res = Some ("sessionid=" ++ v ++ ";" ++ rest)%string ->
  has_char "=" v = false -> has_char ";" v = false ->
  snd (EZID.login srv st) = Ok (Some v)
  /\ _session_id (self (fst (EZID.login srv st))) = Some v.
Proof.
  intros res Hres Hh Hv1 Hv2.
  unfold EZID.login, EZID.raise_for_status, bind, get_self, send, ret, raise, lift.
  cbn [self wire stdout]. fold res. rewrite Hres, Hh.
  change ("sessionid=" ++ v ++ ";" ++ rest)%string
    with ("sessionid" ++ "=" ++ v ++ ";" ++ rest)%string.
  rewrite cookie_value_plain by (reflexivity || assumption).
  unfold set_session_id. cbn [self wire stdout _session_id fst snd].
  destruct (opt_truthy (Some v)); split; reflexivity.
Qed.

End CookieFacts.

(** C8. From [Set-Cookie: sessionid=abc=def; Path=/] both clients take
    [abc], the text between the first and the second [=], cache it and
    return it: [.split("=")[1]] cuts the value at its first [=]; the
    value of the cookie is [abc=def]. *)
Theorem login_cuts_value_at_equals :
  set_cookie (Scenario.padded_cookie_server []
                (EZID.login_request Scenario.anonymous))
  = Some "sessionid=abc=def; Path=/"
  /\ snd (EZID.login Scenario.padded_cookie_server
            (Scenario.start Scenario.anonymous))
     = Ok (Some "abc")
  /\ _session_id (self (fst (EZID.login Scenario.padded_cookie_server
                               (Scenario.start Scenario.anonymous))))
     = Some "abc"
  /\ snd (EZID_urllib2.login Scenario.padded_cookie_server (fun _ => true)
            (Scenario.start Scenario.anonymous))
     = Ok (Some "abc").
Proof. repeat split. Qed.

(** ** [logout] *)

Section LogoutFacts.
Variable srv : Server.

(** After a [logout] that the service answers with a status in
    200..299, the session id is the body of the answer. *)
Lemma logout_caches_body (st : State) :
  let c := srv (wire st)
             (with_cookie (self st)
                (urllib_Request "GET" (_server (self st) ++ "/" ++ "logout"))) in
  ((200 <=? status_code c) && (status_code c <? 300))%Z = true ->
  snd (EZID.logout srv st) = Ok (Some (content c))
  /\ _session_id (self (fst (EZID.logout srv st))) = Some (content c).
Proof.
  intros c Hc. unfold EZID.logout, bind, get_self, ret.
  rewrite get_request_once. cbv zeta. fold c. rewrite Hc.
  unfold set_session_id. cbn [self wire stdout _session_id fst snd].
  destruct (opt_truthy (Some (content c))); split; reflexivity.
Qed.

End LogoutFacts.

(** C5. A client with the session id [abc123] logs out and the service
    answers [success: authentication credentials flushed]: the one
    request is the GET of [/logout] with the cookie of the session, the
    session id is then that answer and the cookie is made from it.  The
    session check that opens [update], [create], [mint] and [delete]
    then finds a session id: it sends nothing and leaves the client as
    it is, so no login comes before the next operation. *)
Theorem logout_keeps_a_session_id :
  let st1 := fst (EZID.logout Scenario.ezid_server
                    (Scenario.start Scenario.with_session)) in
  snd (EZID.logout Scenario.ezid_server (Scenario.start Scenario.with_session))
  = Ok (Some ("success: authentication credentials flushed" ++ s_LF))
  /\ _session_id (self st1)
     = Some ("success: authentication credentials flushed" ++ s_LF)
  /\ _cookie (self st1)
     = Some ("sessionid=success: authentication credentials flushed" ++ s_LF)
  /\ wire st1
     = [mkRequest "GET" "https://ezid.cdlib.org/logout"
          [("Cookie", "sessionid=abc123")] None None]
  /\ EZID.login_if_no_session Scenario.ezid_server st1 = (st1, Ok tt).
Proof. repeat split. Qed.

(** ** The derived cookie is kept by every operation *)

Section KeepsCookie.

Lemma keeps_ret {A} (a : A) : keeps_cookie (ret a).
Proof. intros st H. exact H. Qed.

Lemma keeps_raise {A} (e : exn) : keeps_cookie (@raise A e).
Proof. intros st H. exact H. Qed.

Lemma keeps_lift {A} (r : result A) : keeps_cookie (lift r).
Proof. intros st H. exact H. Qed.

Lemma keeps_get_self : keeps_cookie get_self.
Proof. intros st H. exact H. Qed.

Lemma keeps_print (s : string) : keeps_cookie (print s).
Proof. intros st H. exact H. Qed.

Lemma keeps_send (srv : Server) (r : Request) : keeps_cookie (send srv r).
Proof. intros st H. exact H. Qed.

Lemma keeps_set_session_id (sid : option string) :
  keeps_cookie (set_session_id sid).
Proof. intros st H. apply set_session_id_derived. now left. Qed.

Lemma keeps_bind {A B} (m : M A) (f : A -> M B) :
  keeps_cookie m -> (forall a, keeps_cookie (f a)) -> keeps_cookie (bind m f).
Proof.
  intros Hm Hf st H. unfold bind. specialize (Hm st H).
  destruct (m st) as [st1 [a|e]]; [apply Hf|]; exact Hm.
Qed.

Lemma keeps_try {A} (m : M A) (h : exn -> M A) :
  keeps_cookie m -> (forall e, keeps_cookie (h e)) ->
  keeps_cookie (try_except_HTTPError m h).
Proof.
  intros Hm Hh st H. unfold try_except_HTTPError. specialize (Hm st H).
  destruct (m st) as [st1 [a|e]]; [exact Hm|].
  destruct e; try exact Hm. now apply Hh.
Qed.

End KeepsCookie.

Create HintDb keeps.

#[local] Hint Resolve keeps_ret keeps_raise keeps_lift keeps_get_self
  keeps_print keeps_send keeps_set_session_id : keeps.

Ltac keeps :=
  intros;
  first
    [ solve [auto with keeps]
    | apply keeps_try; [solve [keeps] | solve [keeps]]
    | apply keeps_bind; [solve [keeps] | solve [keeps]]
    | match goal with
      | |- keeps_cookie (if ?c then _ else _) => destruct c; solve [keeps]
      | |- keeps_cookie (match ?x with _ => _ end) => destruct x; solve [keeps]
      end ].

Lemma perform_keeps_cookie (srv : Server) (o : operation) :
  keeps_cookie (perform srv o).
Proof.
  assert (Hg : forall r b, keeps_cookie (EZID._get_request srv r b))
    by (unfold EZID._get_request, EZID.opener_open; keeps).
  assert (Hl : keeps_cookie (EZID.login srv))
    by (unfold EZID.login, EZID.raise_for_status; keeps).
  assert (Hi : keeps_cookie (EZID.login_if_no_session srv))
    by (unfold EZID.login_if_no_session; keeps).
  destruct o; cbn [perform];
    unfold EZID.logout, EZID.view, EZID.update, EZID.create, EZID.mint,
      EZID.delete; keeps.
Qed.

(** ** Status codes *)

Section Status.
Variable srv : Server.
Local Open Scope list_scope.

Lemma urllib2_get_request_once (accepts : Z -> bool) (request : Request)
    (st : State) :
  EZID_urllib2._get_request srv accepts request false st
  = let r := with_cookie (self st) request in
    let c := srv (wire st) r in
    let st' := mkState (self st) (wire st ++ [r]) (stdout st) in
    if ((status_code c =? 201)%Z || accepts (status_code c))%bool
    then (st', Ok (if endswith_LF (content c) then content c
                   else (content c ++ s_LF)%string))
    else (st', Raise (HTTPError (status_code c) (reason c) (content c))).
Proof.
  unfold EZID_urllib2._get_request, EZID_urllib2.opener_open,
    EZID_urllib2.http_response, bind, get_self, send, lift, ret.
  cbv zeta. cbn [self wire stdout].
  destruct (status_code _ =? 201)%Z; cbn [orb].
  - destruct (endswith_LF _); reflexivity.
  - destruct (accepts _); [|reflexivity].
    destruct (endswith_LF _); reflexivity.
Qed.

(** [login] of [src/EZID.py] ends with an HTTP error for the statuses
    400..599 and for no other. *)
Lemma login_not_rejected (st : State) (e : exn) :
  let res := srv (wire st) (EZID.login_request (self st)) in
  ((400 <=? status_code res) && (status_code res <? 600))%Z = false ->
  snd (EZID.login srv st) = Raise e ->
  is_http_error e = false.
Proof.
  intros res Hres.
  unfold EZID.login, EZID.raise_for_status, bind, get_self, send, ret, raise, lift.
  cbn [self wire stdout]. fold res. rewrite Hres.
  destruct (set_cookie res) as [h|];
    [|cbn; intros H; injection H as <-; reflexivity].
  unfold cookie_value, list_index.
  destruct (nth_error (split_char ";" h) 0) as [first|];
    [|cbn; intros H; injection H as <-; reflexivity].
  destruct (nth_error (split_char "=" first) 1) as [v|];
    [|cbn; intros H; injection H as <-; reflexivity].
  cbn. discriminate.
Qed.

End Status.

(** C7 (as the code has it). How a request ends follows from the status
    of the response the HTTP library ends with, after its own handling
    of redirects and of a Basic-auth challenge ([final] below).  In
    [src/EZID.py] a request that goes through [_get_request] (the
    request of [view] and [logout] and the request proper of [mint],
    [create], [update], [delete]) returns the body when that status is
    in 200..299, 201 included, and raises [HTTPError] with the status
    and the reason when it is not.  In [src/EZID/EZID.py] the status
    201 and the statuses the library's processor accepts return the
    body (ended with LF) and every other status raises [HTTPError] with
    the status, the reason and the body.  The login request of
    [src/EZID.py] is checked by [raise_for_status]: it ends with the
    HTTP error of [requests] for the statuses 400..599, and with no
    HTTP error for any other status. *)
Theorem status_decides_outcome (srv : Server) (accepts : Z -> bool)
    (request : Request) (st : State) :
  (let final := srv (wire st) (with_cookie (self st) request) in
   match snd (EZID._get_request srv request false st) with
   | Ok out =>
       ((200 <=? status_code final) && (status_code final <? 300))%Z = true
       /\ out = content final
   | Raise e =>
       ((200 <=? status_code final) && (status_code final <? 300))%Z = false
       /\ exists b, e = HTTPError (status_code final) (reason final) b
   end)
  /\ (let final := srv (wire st) (with_cookie (self st) request) in
      snd (EZID_urllib2._get_request srv accepts request false st)
      = if ((status_code final =? 201)%Z || accepts (status_code final))%bool
        then Ok (if endswith_LF (content final) then content final
                 else content final ++ s_LF)
        else Raise (HTTPError (status_code final) (reason final)
                      (content final)))
  /\ (let res := srv (wire st) (EZID.login_request (self st)) in
      if ((400 <=? status_code res) && (status_code res <? 600))%Z
      then snd (EZID.login srv st)
           = Raise (RequestsHTTPError (status_code res) (reason res)
                      (content res))
      else forall e, snd (EZID.login srv st) = Raise e ->
                     is_http_error e = false).
Proof.
  split; [|split].
  - rewrite get_request_once. cbv zeta.
    destruct ((200 <=? _) && _)%Z; cbn [snd]; split; try reflexivity.
    now exists "".
  - rewrite urllib2_get_request_once. cbv zeta.
    destruct (_ || _)%bool; reflexivity.
  - cbv zeta.
    destruct ((400 <=? _) && _)%Z eqn:E.
    + rewrite login_rejected; [reflexivity|].
      apply andb_true_iff in E. destruct E as [E1 E2].
      apply Z.leb_le in E1. apply Z.ltb_lt in E2. lia.
    + intros e. now apply login_not_rejected.
Qed.

(** C7 as it is worded fails in [src/EZID.py], where [login] goes
    through [requests]: a login answered with the status 300 and a
    cookie raises nothing and returns the session id; and an [update]
    whose login is answered with the status 200 and no [Set-Cookie]
    header ends with [AttributeError]. *)
Lemma status_claim_fails :
  status_code (Scenario.choices_server []
                 (EZID.login_request Scenario.anonymous)) = 300%Z
  /\ snd (EZID.login Scenario.choices_server (Scenario.start Scenario.anonymous))
     = Ok (Some "abc123")
  /\ status_code (Scenario.no_cookie_server []
                    (EZID.login_request Scenario.anonymous)) = 200%Z
  /\ EZID.update Scenario.no_cookie_server "ark:/99999/fk412345"
       [("dc.title", "t")] (Scenario.start Scenario.anonymous)
     = (mkState Scenario.anonymous
          [mkRequest "GET" "https://ezid.cdlib.org/login" [] None None] [],
        Raise AttributeError).
Proof. repeat split. Qed.

(** * Further properties *)

(** ** The encoder *)

Section EncoderMore.
Import AnvlSpec.
Local Open Scope list_scope.

Lemma decode_anvl_line (kv : string * string) :
  decode_line (anvl_line kv) = Some kv.
Proof.
  destruct kv as [k v]. unfold decode_line, anvl_line. cbn [fst snd].
  rewrite split_first_colon_space by apply escape_label_no_colon.
  unfold escape_label, escape_value.
  now rewrite !unescape_re_sub_class by reflexivity.
Qed.

Lemma anvl_line_injective (a b : string * string) :
  anvl_line a = anvl_line b -> a = b.
Proof.
  intros H. apply (f_equal decode_line) in H.
  rewrite !decode_anvl_line in H. now injection H.
Qed.

Lemma map_anvl_line_injective (d1 d2 : dict) :
  map anvl_line d1 = map anvl_line d2 -> d1 = d2.
Proof.
  revert d2. induction d1 as [|a d1 IH]; intros [|b d2] H;
    try discriminate; [reflexivity|].
  cbn [map] in H. injection H as H1 H2.
  now rewrite (anvl_line_injective a b H1), (IH d2 H2).
Qed.

Lemma lines_no_LF (d : dict) :
  Forall (fun s => has_char LF s = false) (map anvl_line d).
Proof.
  apply Forall_forall. intros s Hs. apply in_map_iff in Hs.
  destruct Hs as [kv [<- _]]. apply anvl_line_no_LF.
Qed.

End EncoderMore.

(** X1. [formatAnvlFromDict] loses nothing of a whole dict: two dicts
    (as lists of items in iteration order) with the same encoding are
    the same, whatever characters the keys and values hold. *)
Theorem formatAnvlFromDict_injective (d1 d2 : dict) :
  formatAnvlFromDict d1 = formatAnvlFromDict d2 -> d1 = d2.
Proof.
  unfold formatAnvlFromDict. intros H.
  destruct d1 as [|a d1], d2 as [|b d2]; [reflexivity| | |].
  - exfalso.
    destruct (str_join_lines_end (b :: d2)) as [Hne _]; [discriminate|].
    now apply Hne.
  - exfalso.
    destruct (str_join_lines_end (a :: d1)) as [Hne _]; [discriminate|].
    now apply Hne.
  - apply map_anvl_line_injective.
    rewrite <- (split_char_join (map anvl_line (a :: d1)));
      [|discriminate | apply lines_no_LF].
    rewrite <- (split_char_join (map anvl_line (b :: d2)));
      [|discriminate | apply lines_no_LF].
    now rewrite H.
Qed.

Lemma formatAnvlFromDict_injective_witness :
  formatAnvlFromDict [("a:b", "c%d")] = formatAnvlFromDict [("a:b", "c%d")]
  /\ [("a:b", "c%d")] = [("a:b", "c%d")].
Proof.
  split; [reflexivity|].
  exact (formatAnvlFromDict_injective [("a:b", "c%d")] [("a:b", "c%d")] eq_refl).
Defined.

Section EncoderShape.
Local Open Scope list_scope.

Lemma wellformed_app_fuel (n : nat) :
  forall a b, String.length a <= n ->
    escapes_wellformed a = true -> escapes_wellformed b = true ->
    escapes_wellformed (a ++ b)%string = true.
Proof.
  induction n as [|n IH]; intros a b Hn Ha Hb.
  - destruct a; [exact Hb | simpl in Hn; lia].
  - destruct a as [|c r]; [exact Hb|].
    cbn [append escapes_wellformed] in *.
    destruct (Ascii.eqb c "%").
    + destruct r as [|x [|y r']]; try discriminate.
      cbn [append]. apply andb_true_iff in Ha. destruct Ha as [Hd Hr].
      rewrite Hd. cbn [andb]. apply IH; [cbn in Hn; lia | exact Hr | exact Hb].
    + apply IH; [cbn in Hn; lia | exact Ha | exact Hb].
Qed.

Lemma wellformed_app (a b : string) :
  escapes_wellformed a = true -> escapes_wellformed b = true ->
  escapes_wellformed (a ++ b)%string = true.
Proof. apply (wellformed_app_fuel (String.length a)). lia. Qed.

Lemma wellformed_pct_escape (c : ascii) (rest : string) :
  escapes_wellformed (pct_escape c ++ rest)%string = escapes_wellformed rest.
Proof. destruct c as [[] [] [] [] [] [] [] []]; reflexivity. Qed.

Lemma wellformed_re_sub_class (cls s : string) :
  in_class cls "%" = true ->
  escapes_wellformed (re_sub_class cls pct_escape s) = true.
Proof.
  intros Hpct. induction s as [|c s IH]; [reflexivity|].
  cbn [re_sub_class]. destruct (in_class cls c) eqn:Ec.
  - now rewrite wellformed_pct_escape.
  - cbn [escapes_wellformed].
    destruct (Ascii.eqb_spec c "%") as [->|_]; [congruence | exact IH].
Qed.

Lemma wellformed_anvl_line (kv : string * string) :
  escapes_wellformed (anvl_line kv) = true.
Proof.
  unfold anvl_line. cbv zeta.
  apply wellformed_app; [now apply wellformed_re_sub_class|].
  apply (wellformed_app ": "); [reflexivity|].
  now apply wellformed_re_sub_class.
Qed.

Lemma anvl_line_no_CR (kv : string * string) :
  has_char CR (anvl_line kv) = false.
Proof.
  unfold anvl_line, escape_label, escape_value. cbv zeta.
  rewrite !has_char_app.
  rewrite !re_sub_class_removes by (reflexivity || discriminate).
  reflexivity.
Qed.

Lemma str_join_all (P : string -> bool) (sep : string) (l : list string) :
  (forall a b, P a = true -> P b = true -> P (a ++ b)%string = true) ->
  P "" = true -> P sep = true ->
  Forall (fun s => P s = true) l -> P (str_join sep l) = true.
Proof.
  intros Happ Hnil Hsep. induction l as [|x r IH]; intros HF; [exact Hnil|].
  inversion HF as [|? ? Hx Hr]; subst.
  destruct r as [|y r']; [exact Hx|].
  change (str_join sep (x :: y :: r'))
    with (x ++ sep ++ str_join sep (y :: r'))%string.
  apply Happ; [exact Hx|]. apply Happ; [exact Hsep | exact (IH Hr)].
Qed.

End EncoderShape.

(** X2. What [formatAnvlFromDict] never writes: a raw CR, or a [%]
    that is not followed by two uppercase hexadecimal digits.  So every
    [%] of the output starts an escape, also when the keys and values
    hold [%] themselves. *)
Theorem formatAnvlFromDict_shape (d : dict) :
  has_char CR (formatAnvlFromDict d) = false
  /\ escapes_wellformed (formatAnvlFromDict d) = true.
Proof.
  unfold formatAnvlFromDict. split.
  - apply negb_true_iff.
    apply (str_join_all (fun s => negb (has_char CR s))).
    + intros a b Ha Hb. rewrite has_char_app.
      apply negb_true_iff in Ha, Hb. now rewrite Ha, Hb.
    + reflexivity.
    + reflexivity.
    + apply Forall_forall. intros s Hs. apply in_map_iff in Hs.
      destruct Hs as [kv [<- _]]. now rewrite anvl_line_no_CR.
  - apply (str_join_all escapes_wellformed).
    + apply wellformed_app.
    + reflexivity.
    + reflexivity.
    + apply Forall_forall. intros s Hs. apply in_map_iff in Hs.
      destruct Hs as [kv [<- _]]. apply wellformed_anvl_line.
Qed.

Section EncoderLength.

Lemma length_append (a b : string) :
  String.length (a ++ b) = String.length a + String.length b.
Proof. induction a as [|c a IH]; simpl; [reflexivity | now rewrite IH]. Qed.

Lemma length_pct_escape (c : ascii) : String.length (pct_escape c) = 3.
Proof. destruct c as [[] [] [] [] [] [] [] []]; reflexivity. Qed.

Lemma length_re_sub_class (cls s : string) :
  String.length (re_sub_class cls pct_escape s)
  = String.length s + 2 * count_class cls s.
Proof.
  induction s as [|c s IH]; [reflexivity|].
  cbn [re_sub_class count_class]. destruct (in_class cls c).
  - rewrite length_append, length_pct_escape, IH. cbn [String.length]. lia.
  - cbn [String.length]. rewrite IH. lia.
Qed.

Lemma re_sub_class_plain (cls s : string) :
  count_class cls s = 0 -> re_sub_class cls pct_escape s = s.
Proof.
  induction s as [|c s IH]; [reflexivity|].
  cbn [re_sub_class count_class]. destruct (in_class cls c); [discriminate|].
  intros H. now rewrite (IH H).
Qed.

End EncoderLength.

(** X3. The escaping leaves a key or a value as it is exactly when it
    holds none of the reserved characters; otherwise the text grows by
    two characters for each reserved character. *)
Theorem escape_identity_iff (k v : string) :
  (escape_label k = k <-> count_class label_class k = 0)
  /\ (escape_value v = v <-> count_class value_class v = 0)
  /\ String.length (escape_label k)
     = String.length k + 2 * count_class label_class k
  /\ String.length (escape_value v)
     = String.length v + 2 * count_class value_class v.
Proof.
  unfold escape_label, escape_value.
  repeat split; try apply re_sub_class_plain; try apply length_re_sub_class.
  - intros H. apply (f_equal String.length) in H.
    rewrite length_re_sub_class in H. lia.
  - intros H. apply (f_equal String.length) in H.
    rewrite length_re_sub_class in H. lia.
Qed.

Section ListAndDict.
Local Open Scope list_scope.

Lemma pair_up_flatten (d : dict) : pair_up (flatten_items d) = d.
Proof.
  induction d as [|[k v] d IH]; [reflexivity|].
  cbn [flatten_items pair_up]. now rewrite IH.
Qed.

Lemma even_length_flatten (d : dict) :
  Nat.even (List.length (flatten_items d)) = true.
Proof. induction d as [|[k v] d IH]; [reflexivity | exact IH]. Qed.

End ListAndDict.

(** X4. The two encoders agree: [formatAnvlFromList] on the flat list
    [label, value, label, value, ...] of a dict's items always returns,
    and returns what [formatAnvlFromDict] gives for the dict. *)
Theorem formatAnvlFromList_of_items (d : dict) :
  formatAnvlFromList (flatten_items d) = Ok (formatAnvlFromDict d).
Proof.
  unfold formatAnvlFromList, range2, formatAnvlFromDict.
  change (range2_fuel (List.length (flatten_items d)) 0
            (List.length (flatten_items d)))
    with (range2_fuel (List.length (flatten_items d)) (@List.length string [])
            (List.length (flatten_items d))).
  rewrite (anvl_list_loop_spec (flatten_items d)
             (List.length (flatten_items d)) [] (flatten_items d) [])
    by (reflexivity || lia).
  now rewrite even_length_flatten, pair_up_flatten.
Qed.

(** ** The constructor *)

(** X5. [EZIDClient(...)] fails with [KeyError] exactly when the
    credentials are a non-empty dict without [username] or without
    [password].  Otherwise the four arguments are stored as given, the
    cookie is made from a session id that counts as true and is [None]
    for any other, and [login] sends the stored user name and password:
    the defaults of [login]'s [.get(..., '')] are never used for a
    client the constructor has built.  An empty credentials dict is the
    same as none. *)
Theorem init_outcome (server : string) (proxy credentials : option dict)
    (session_id : option string) :
  match __init__ server proxy credentials session_id with
  | Ok c =>
      _server c = server /\ _proxy c = proxy
      /\ _credentials c = credentials /\ _session_id c = session_id
      /\ _cookie c = (if opt_truthy session_id
                      then option_map (append "sessionid=") session_id
                      else None)
      /\ match credentials with
         | Some (e :: d) =>
             exists u p,
               dict_lookup (e :: d) "username" = Some u
               /\ dict_lookup (e :: d) "password" = Some p
               /\ basic_auth (_opener c) = Some ("EZID", server, u, p)
               /\ req_auth (EZID.login_request c) = Some (u, p)
         | _ =>
             basic_auth (_opener c) = None
             /\ req_auth (EZID.login_request c) = None
         end
  | Raise e =>
      e = KeyError
      /\ exists e0 d, credentials = Some (e0 :: d)
           /\ (dict_lookup (e0 :: d) "username" = None
               \/ dict_lookup (e0 :: d) "password" = None)
  end.
Proof.
  unfold __init__.
  destruct credentials as [[|e0 d]|]; cbn [dict_truthy].
  - destruct session_id as [[|a s]|]; cbn; repeat split.
  - unfold dict_item.
    destruct (dict_lookup (e0 :: d) "username") as [u|] eqn:Eu.
    + destruct (dict_lookup (e0 :: d) "password") as [p|] eqn:Ep.
      * repeat split.
        -- destruct session_id as [[|a s]|]; reflexivity.
        -- exists u, p. repeat split.
           unfold EZID.login_request. cbn [_credentials dict_truthy req_auth].
           unfold dict_get. now rewrite Eu, Ep.
      * split; [reflexivity|]. exists e0, d. split; [reflexivity | now right].
    + split; [reflexivity|]. exists e0, d. split; [reflexivity | now left].
  - destruct session_id as [[|a s]|]; cbn; repeat split.
Qed.

(** ** What the operations do to the client object *)

Section Relates.
Variable R : EZIDClient -> EZIDClient -> Prop.
Hypothesis R_refl : forall c, R c c.
Hypothesis R_trans : forall a b c, R a b -> R b c -> R a c.
Hypothesis R_set :
  forall st sid, R (self st) (self (fst (set_session_id sid st))).

Lemma relates_ret {A} (a : A) : relates R (ret a).
Proof. intros st. apply R_refl. Qed.

Lemma relates_raise {A} (e : exn) : relates R (@raise A e).
Proof. intros st. apply R_refl. Qed.

Lemma relates_lift {A} (r : result A) : relates R (lift r).
Proof. intros st. apply R_refl. Qed.

Lemma relates_get_self : relates R get_self.
Proof. intros st. apply R_refl. Qed.

Lemma relates_print (s : string) : relates R (print s).
Proof. intros st. apply R_refl. Qed.

Lemma relates_send (srv : Server) (r : Request) : relates R (send srv r).
Proof. intros st. apply R_refl. Qed.

Lemma relates_set_session_id (sid : option string) :
  relates R (set_session_id sid).
Proof. intros st. apply R_set. Qed.

Lemma relates_bind {A B} (m : M A) (f : A -> M B) :
  relates R m -> (forall a, relates R (f a)) -> relates R (bind m f).
Proof.
  intros Hm Hf st. unfold bind. specialize (Hm st).
  destruct (m st) as [st1 [a|e]]; [|exact Hm].
  cbn [fst] in Hm. exact (R_trans _ _ _ Hm (Hf a st1)).
Qed.

Lemma relates_try {A} (m : M A) (h : exn -> M A) :
  relates R m -> (forall e, relates R (h e)) ->
  relates R (try_except_HTTPError m h).
Proof.
  intros Hm Hh st. unfold try_except_HTTPError. specialize (Hm st).
  destruct (m st) as [st1 [a|e]]; [exact Hm|].
  destruct e; try exact Hm.
  cbn [fst] in Hm. exact (R_trans _ _ _ Hm (Hh _ st1)).
Qed.

Ltac relates :=
  cbv beta zeta;
  first
    [ apply relates_ret | apply relates_raise | apply relates_lift
    | apply relates_get_self | apply relates_print | apply relates_send
    | apply relates_set_session_id
    | match goal with H : _ |- _ => apply H end
    | apply relates_try; [solve [relates] | intro; solve [relates]]
    | apply relates_bind; [solve [relates] | intro; solve [relates]]
    | match goal with
      | |- relates _ (if ?c then _ else _) => destruct c; solve [relates]
      | |- relates _ (match ?x with _ => _ end) => destruct x; solve [relates]
      end ].

Lemma perform_relates (srv : Server) (o : operation) :
  relates R (perform srv o).
Proof.
  assert (Hg : forall r b, relates R (EZID._get_request srv r b))
    by (intros r b; unfold EZID._get_request, EZID.opener_open; relates).
  assert (Hl : relates R (EZID.login srv))
    by (unfold EZID.login, EZID.raise_for_status; relates).
  assert (Hi : relates R (EZID.login_if_no_session srv))
    by (unfold EZID.login_if_no_session; relates).
  destruct o; cbn [perform];
    unfold EZID.logout, EZID.view, EZID.update, EZID.create, EZID.mint,
      EZID.delete; relates.
Qed.

Lemma perform_urllib2_relates (srv : Server) (accepts : Z -> bool)
    (o : operation) :
  relates R (perform_urllib2 srv accepts o).
Proof.
  assert (Hg : forall r b, relates R (EZID_urllib2._get_request srv accepts r b))
    by (intros r b; unfold EZID_urllib2._get_request, EZID_urllib2.opener_open;
        relates).
  assert (Hl : relates R (EZID_urllib2.login srv accepts))
    by (unfold EZID_urllib2.login; relates).
  assert (Hi : relates R (EZID_urllib2.login_if_no_session srv accepts))
    by (unfold EZID_urllib2.login_if_no_session; relates).
  destruct o; cbn [perform_urllib2];
    unfold EZID_urllib2.logout, EZID_urllib2.view, EZID_urllib2.update,
      EZID_urllib2.create, EZID_urllib2.mint; relates.
Qed.

End Relates.

(** X6. No operation of either client changes what the constructor
    fixed: proxy, opener, server and credentials are the same after
    every call, whether it returns or raises. *)
Theorem operations_keep_config (srv : Server) (accepts : Z -> bool)
    (o : operation) (st : State) :
  same_config (self st) (self (fst (perform srv o st)))
  /\ same_config (self st) (self (fst (perform_urllib2 srv accepts o st))).
Proof.
  assert (Hrefl : forall c, same_config c c) by (intros c; repeat split).
  assert (Htrans : forall a b c,
             same_config a b -> same_config b c -> same_config a c).
  { intros a b c [H1 [H2 [H3 H4]]] [K1 [K2 [K3 K4]]].
    repeat split; congruence. }
  assert (Hset : forall st0 sid,
             same_config (self st0) (self (fst (set_session_id sid st0)))).
  { intros st0 sid. unfold set_session_id. cbn [fst self _session_id].
    destruct (opt_truthy sid); repeat split. }
  split.
  - exact (perform_relates same_config Hrefl Htrans Hset srv o st).
  - exact (perform_urllib2_relates same_config Hrefl Htrans Hset srv accepts o st).
Qed.

(** X7. No operation of either client ever takes a cookie away: when
    the client holds a cookie before a call, it holds one after it,
    [logout] included. *)
Theorem operations_never_clear_cookie (srv : Server) (accepts : Z -> bool)
    (o : operation) (st : State) :
  opt_truthy (_cookie (self st)) = true ->
  opt_truthy (_cookie (self (fst (perform srv o st)))) = true
  /\ opt_truthy (_cookie (self (fst (perform_urllib2 srv accepts o st)))) = true.
Proof.
  assert (Hrefl : forall c, cookie_kept c c) by (intros c H; exact H).
  assert (Htrans : forall a b c,
             cookie_kept a b -> cookie_kept b c -> cookie_kept a c).
  { intros a b c H1 H2 H. exact (H2 (H1 H)). }
  assert (Hset : forall st0 sid,
             cookie_kept (self st0) (self (fst (set_session_id sid st0)))).
  { intros st0 sid H. unfold set_session_id. cbn [fst self _session_id].
    destruct (opt_truthy sid); [reflexivity | exact H]. }
  intros H. split.
  - exact (perform_relates cookie_kept Hrefl Htrans Hset srv o st H).
  - exact (perform_urllib2_relates cookie_kept Hrefl Htrans Hset srv accepts o st H).
Qed.

Lemma operations_never_clear_cookie_witness :
  opt_truthy (_cookie (self (Scenario.start Scenario.with_session))) = true
  /\ opt_truthy
       (_cookie (self (fst (perform Scenario.ezid_server Logout
                              (Scenario.start Scenario.with_session))))) = true.
Proof.
  split; [reflexivity|].
  exact (proj1 (operations_never_clear_cookie Scenario.ezid_server
                  (fun _ => true) Logout
                  (Scenario.start Scenario.with_session) eq_refl)).
Defined.

(** ** [login] *)

Section LoginMore.
Variable srv : Server.
Local Open Scope list_scope.

Lemma split_char_first (x : ascii) (s : string) :
  exists rest, split_char x s = str_before x s :: rest
    /\ (has_char x s = false -> rest = [])
    /\ (has_char x s = true -> rest = split_char x (str_after x s)).
Proof.
  induction s as [|c s IH]; cbn [split_char str_before str_after has_char].
  - exists []. repeat split; intros; congruence.
  - destruct (Ascii.eqb c x).
    + exists (split_char x s). repeat split; intros; congruence.
    + destruct IH as [rest [E [H1 H2]]]. rewrite E.
      exists rest. repeat split; assumption.
Qed.

Lemma cookie_value_parts (h : string) :
  cookie_value h
  = if has_char "=" (str_before ";" h)
    then Ok (str_before "=" (str_after "=" (str_before ";" h)))
    else Raise IndexError.
Proof.
  unfold cookie_value.
  destruct (split_char_first ";" h) as [r1 [E1 _]]. rewrite E1.
  cbn [list_index nth_error].
  destruct (split_char_first "=" (str_before ";" h)) as [r2 [E2 [Hno Hyes]]].
  rewrite E2. destruct (has_char "=" (str_before ";" h)).
  - rewrite (Hyes eq_refl).
    destruct (split_char_first "=" (str_after "=" (str_before ";" h)))
      as [r3 [E3 _]].
    rewrite E3. reflexivity.
  - rewrite (Hno eq_refl). reflexivity.
Qed.

Lemma login_cases (st : State) :
  let res := srv (wire st) (EZID.login_request (self st)) in
  let st1 := mkState (self st) (wire st ++ [EZID.login_request (self st)])
               (stdout st) in
  EZID.login srv st
  = if ((400 <=? status_code res) && (status_code res <? 600))%Z
    then (st1, Raise (RequestsHTTPError (status_code res) (reason res)
                        (content res)))
    else match set_cookie res with
         | None => (st1, Raise AttributeError)
         | Some h =>
             match cookie_value h with
             | Raise e => (st1, Raise e)
             | Ok v =>
                 (fst (set_session_id (Some v) st1), Ok (Some v))
             end
         end.
Proof.
  cbv zeta.
  unfold EZID.login, EZID.raise_for_status, bind, get_self, send, ret, raise, lift.
  cbn [self wire stdout].
  destruct (_ && _)%bool; [reflexivity|].
  destruct (set_cookie _); [|reflexivity].
  destruct (cookie_value _); [|reflexivity].
  unfold set_session_id. cbn [self wire stdout fst _session_id].
  destruct (opt_truthy (Some a)); reflexivity.
Qed.

End LoginMore.

(** X8. What [login] of [src/EZID.py] does to the client: it sends its
    one request in every case; when it raises, whatever the exception,
    the client object is as before; when it returns, it returns the
    session id it has stored, and the cookie is made from that id, or
    left as it was when the id is the empty string. *)
Theorem login_effect (srv : Server) (st : State) :
  wire (fst (EZID.login srv st))
  = (wire st ++ [EZID.login_request (self st)])%list
  /\ match snd (EZID.login srv st) with
     | Raise _ => self (fst (EZID.login srv st)) = self st
     | Ok r =>
         exists v, r = Some v
           /\ _session_id (self (fst (EZID.login srv st))) = Some v
           /\ _cookie (self (fst (EZID.login srv st)))
              = (if str_truthy v then Some ("sessionid=" ++ v)
                 else _cookie (self st))
     end.
Proof.
  split; [apply login_wire|].
  rewrite login_cases. cbv zeta.
  destruct (_ && _)%bool; [reflexivity|].
  destruct (set_cookie _) as [h|]; [|reflexivity].
  destruct (cookie_value h) as [v|e]; [|reflexivity].
  cbn [snd fst]. exists v. unfold set_session_id.
  cbn [fst self _session_id opt_truthy].
  destruct (str_truthy v); repeat split.
Qed.

(** X9. How the session id is read from a [Set-Cookie] value [h]
    ([h.split(";")[0].split("=")[1]]): with no [=] before the first
    [;] of [h] the expression ends with [IndexError]; otherwise it is
    the text after the first [=], up to the next [=] or the first [;],
    so it holds neither [=] nor [;] and may be empty. *)
Theorem cookie_value_outcome (h : string) :
  cookie_value h
  = (if has_char "=" (str_before ";" h)
     then Ok (str_before "=" (str_after "=" (str_before ";" h)))
     else Raise IndexError)
  /\ forall v, cookie_value h = Ok v ->
               has_char "=" v = false /\ has_char ";" v = false.
Proof.
  split; [apply cookie_value_parts|].
  assert (Hb : forall x s, has_char x (str_before x s) = false).
  { intros x s. induction s as [|c s IH]; [reflexivity|].
    cbn [str_before]. destruct (Ascii.eqb c x) eqn:E; [reflexivity|].
    cbn [has_char]. now rewrite E. }
  assert (Hbb : forall x y s, has_char y s = false ->
                              has_char y (str_before x s) = false).
  { intros x y s. induction s as [|c s IH]; [reflexivity|].
    cbn [has_char str_before]. destruct (Ascii.eqb c y) eqn:E1; [discriminate|].
    intros H. destruct (Ascii.eqb c x); [reflexivity|].
    cbn [has_char]. rewrite E1. now apply IH. }
  assert (Ha : forall x y s, has_char y s = false ->
                             has_char y (str_after x s) = false).
  { intros x y s. induction s as [|c s IH]; [reflexivity|].
    cbn [has_char str_after]. destruct (Ascii.eqb c y); [discriminate|].
    intros H. destruct (Ascii.eqb c x); [exact H | now apply IH]. }
  intros v. rewrite cookie_value_parts.
  destruct (has_char "=" (str_before ";" h)); [|discriminate].
  intros H. injection H as <-. split; [apply Hb|].
  apply Hbb, Ha, Hb.
Qed.

(** X10. In [src/EZID.py], [_get_request(request, login=True)] never
    returns: the request is sent, and the call ends with [HTTPError],
    or with [AttributeError] or [IndexError] from the cookie parsing
    and the [decode] of a text value. *)
Theorem get_request_login_flag_never_returns (srv : Server)
    (request : Request) (st : State) :
  wire (fst (EZID._get_request srv request true st))
  = (wire st ++ [with_cookie (self st) request])%list
  /\ exists e, snd (EZID._get_request srv request true st) = Raise e
               /\ (is_http_error e = true \/ e = AttributeError
                   \/ e = IndexError).
Proof.
  unfold EZID._get_request, EZID.opener_open, try_except_HTTPError, bind,
    get_self, send, print, ret, raise, lift.
  cbv zeta. cbn [self wire stdout].
  destruct (_ && _)%bool; cbn [fst snd wire].
  - destruct (set_cookie _) as [h|]; cbn [fst snd wire].
    + rewrite cookie_value_parts.
      destruct (has_char "=" (str_before ";" h)); cbn [fst snd wire];
        (split; [reflexivity|]); eexists; (split; [reflexivity|]); auto.
    + split; [reflexivity|]. eexists. split; [reflexivity|]. auto.
  - split; [reflexivity|]. eexists. split; [reflexivity|]. now left.
Qed.

(** ** Operations one after the other *)

Section Composition.
Variable srv : Server.
Local Open Scope list_scope.

Lemma with_cookie_some (c : EZIDClient) (k : string) (r : Request) :
  _cookie c = Some k -> k <> "" -> with_cookie c r = add_header "Cookie" k r.
Proof.
  intros Hc Hk. unfold with_cookie. rewrite Hc. cbn.
  destruct k; [congruence | reflexivity].
Qed.

(** A mutating operation whose session check ends with the state [st1]
    goes on as if it had been called in [st1]. *)
Lemma perform_after_session_check (o : operation) (st st1 : State) :
  mutating o = true ->
  EZID.login_if_no_session srv st = (st1, Ok tt) ->
  opt_truthy (_session_id (self st1)) = true ->
  perform srv o st = perform srv o st1.
Proof.
  intros Hm E Hs.
  destruct o as [| |i|i d|i d|sh d|i]; try discriminate Hm; cbn [perform];
    unfold EZID.update, EZID.create, EZID.mint, EZID.delete;
    unfold bind;
    rewrite E, (login_if_no_session_cached srv st1 Hs); reflexivity.
Qed.

Lemma login_if_no_session_success (st : State) (v rest : string) :
  opt_truthy (_session_id (self st)) = false ->
  let res := srv (wire st) (EZID.login_request (self st)) in
  ((400 <=? status_code res) && (status_code res <? 600))%Z = false ->
  set_cookie res = Some ("sessionid=" ++ v ++ ";" ++ rest)%string ->
  has_char "=" v = false -> has_char ";" v = false -> v <> "" ->
  EZID.login_if_no_session srv st
  = (mkState (mkClient (_proxy (self st)) (_opener (self st))
                (_server (self st)) (_credentials (self st))
                (Some v) (Some ("sessionid=" ++ v)%string))
       (wire st ++ [EZID.login_request (self st)]) (stdout st),
     Ok tt).
Proof.
  intros Hs res Hres Hh Hv1 Hv2 Hne.
  unfold EZID.login_if_no_session.
  unfold bind at 1. unfold get_self at 1. rewrite Hs. cbn [negb].
  unfold bind. rewrite login_cases. cbv zeta. fold res. rewrite Hres, Hh.
  change ("sessionid=" ++ v ++ ";" ++ rest)%string
    with ("sessionid" ++ "=" ++ v ++ ";" ++ rest)%string.
  rewrite cookie_value_plain by (reflexivity || assumption).
  rewrite !set_session_id_truthy by exact Hne.
  cbn [fst self wire stdout _proxy _opener _server _credentials].
  reflexivity.
Qed.

End Composition.

(** X11. The implicit login and the request after it: when no session
    id is cached and the service answers the login with a status
    outside 400..599 and [Set-Cookie: sessionid=<v>;...] ([v] not empty,
    without [=]), a mutating operation sends exactly two requests, the
    login request and then its own request with the header
    [Cookie: sessionid=<v>], and leaves [v] cached as the session id. *)
Theorem implicit_login_then_request (srv : Server) (o : operation)
    (st : State) (v rest : string) :
  mutating o = true ->
  opt_truthy (_session_id (self st)) = false ->
  ((400 <=? status_code (srv (wire st) (EZID.login_request (self st))))
   && (status_code (srv (wire st) (EZID.login_request (self st))) <? 600))%Z
  = false ->
  set_cookie (srv (wire st) (EZID.login_request (self st)))
  = Some ("sessionid=" ++ v ++ ";" ++ rest) ->
  has_char "=" v = false -> has_char ";" v = false -> v <> "" ->
  exists request,
    wire (fst (perform srv o st))
    = (wire st ++ [EZID.login_request (self st);
                   add_header "Cookie" ("sessionid=" ++ v) request])%list
    /\ req_url request <> req_url (EZID.login_request (self st))
    /\ _session_id (self (fst (perform srv o st))) = Some v.
Proof.
  intros Hm Hs Hres Hh Hv1 Hv2 Hne.
  pose proof (login_if_no_session_success srv st v rest Hs Hres Hh Hv1 Hv2 Hne)
    as E.
  set (st1 := mkState _ _ _) in E.
  assert (Hs1 : opt_truthy (_session_id (self st1)) = true)
    by (apply opt_truthy_Some; exact Hne).
  rewrite (perform_after_session_check srv o st st1 Hm E Hs1).
  destruct (mutating_cached srv o st1 Hm Hs1) as [request [Hw [Hc Hu]]].
  exists request. rewrite Hw, Hc. repeat split.
  - rewrite (with_cookie_some (self st1) ("sessionid=" ++ v) request);
      [|reflexivity | discriminate].
    unfold st1. cbn [wire]. now rewrite <- app_assoc.
  - exact Hu.
Qed.

Lemma implicit_login_then_request_witness :
  exists request,
    wire (fst (perform Scenario.open_server
                 (Update "ark:/99999/fk412345" [("dc.title", "t")])
                 (Scenario.start Scenario.anonymous)))
    = ([] ++ [mkRequest "GET" "https://ezid.cdlib.org/login" [] None None;
              add_header "Cookie" "sessionid=abc123" request])%list
    /\ req_url request <> "https://ezid.cdlib.org/login"
    /\ _session_id
         (self (fst (perform Scenario.open_server
                       (Update "ark:/99999/fk412345" [("dc.title", "t")])
                       (Scenario.start Scenario.anonymous))))
       = Some "abc123".
Proof.
  exact (implicit_login_then_request Scenario.open_server
           (Update "ark:/99999/fk412345" [("dc.title", "t")])
           (Scenario.start Scenario.anonymous) "abc123" " Path=/"
           eq_refl eq_refl eq_refl eq_refl eq_refl eq_refl
           ltac:(discriminate)).
Defined.


(** ** [view] *)

(** X13. [view] never changes the client object, in any state and
    whatever the answer is: session id, cookie and configuration are
    afterwards what they were.  When [view] returns, the status of the
    response the HTTP library ended with is in 200..299 and the value
    is the body of that response as it is: [view] cuts and strips
    nothing. *)
Theorem view_leaves_client (srv : Server) (identifier : string) (st : State) :
  let final :=
    srv (wire st)
      (with_cookie (self st)
         (urllib_Request "GET" (_server (self st) ++ "/id/" ++ identifier))) in
  self (fst (EZID.view srv identifier st)) = self st
  /\ match snd (EZID.view srv identifier st) with
     | Ok out =>
         out = content final
         /\ ((200 <=? status_code final) && (status_code final <? 300))%Z = true
     | Raise _ => True
     end.
Proof.
  cbv zeta. unfold EZID.view, bind, get_self.
  rewrite get_request_once. cbv zeta.
  destruct (_ && _)%bool eqn:E; repeat split.
Qed.

(** ** [mint]: the value returned *)

Section StripFacts.
Variable sp : ascii -> bool.

Lemma lstrip_head (s : string) :
  lstrip sp s = "" \/ exists c r, lstrip sp s = String c r /\ sp c = false.
Proof.
  induction s as [|c s IH]; [now left|].
  cbn [lstrip]. destruct (sp c) eqn:E; [exact IH|].
  right. now exists c, s.
Qed.

Lemma rstrip_idem (s : string) : rstrip sp (rstrip sp s) = rstrip sp s.
Proof.
  induction s as [|c s IH]; [reflexivity|].
  cbn [rstrip]. destruct (rstrip sp s) as [|d r'] eqn:E.
  - destruct (sp c) eqn:Ec; [reflexivity|]. cbn [rstrip]. now rewrite Ec.
  - cbn [rstrip]. cbn [rstrip] in IH. now rewrite IH.
Qed.

Lemma rstrip_keeps_head (c : ascii) (r : string) :
  sp c = false -> exists r', rstrip sp (String c r) = String c r'.
Proof.
  intros Hc. cbn [rstrip]. destruct (rstrip sp r) as [|d r'].
  - rewrite Hc. now exists "".
  - now exists (String d r').
Qed.

Lemma strip_fixed (s : string) :
  lstrip sp (strip sp s) = strip sp s /\ rstrip sp (strip sp s) = strip sp s.
Proof.
  unfold strip. split; [|apply rstrip_idem].
  destruct (lstrip_head s) as [E | [c [r [E Hc]]]]; rewrite E; [reflexivity|].
  destruct (rstrip_keeps_head c r Hc) as [r' E']. rewrite E'.
  cbn [lstrip]. now rewrite Hc.
Qed.

End StripFacts.

Section BindFacts.

Lemma bind_ok_inv {A B} (m : M A) (k : A -> M B) (st : State) (b : B) :
  snd (bind m k st) = Ok b ->
  exists a st1, m st = (st1, Ok a) /\ snd (k a st1) = Ok b.
Proof.
  unfold bind. destruct (m st) as [st1 [a|e]]; [|discriminate].
  intros H. now exists a, st1.
Qed.

End BindFacts.

(** X14. Whatever the service answers, an identifier that [mint]
    returns has no whitespace left to strip on either side (the
    whitespace of Python 3 text in [src/EZID.py], of a Python 2 byte
    string in [src/EZID/EZID.py]). *)
Theorem mint_result_stripped (srv : Server) (accepts : Z -> bool)
    (shoulder : string) (data : option dict) (st : State) :
  match snd (EZID.mint srv shoulder data st) with
  | Ok r => lstrip isspace3 r = r /\ rstrip isspace3 r = r
  | Raise _ => True
  end
  /\ match snd (EZID_urllib2.mint srv accepts shoulder data st) with
     | Ok r => lstrip isspace2 r = r /\ rstrip isspace2 r = r
     | Raise _ => True
     end.
Proof.
  split.
  - destruct (snd (EZID.mint srv shoulder data st)) as [r|e] eqn:H; [|exact I].
    unfold EZID.mint in H.
    apply bind_ok_inv in H. destruct H as [_ [st1 [_ H]]].
    apply bind_ok_inv in H. destruct H as [c [st2 [_ H]]].
    apply bind_ok_inv in H. destruct H as [out [st3 [_ H]]].
    cbn in H. injection H as <-. apply strip_fixed.
  - destruct (snd (EZID_urllib2.mint srv accepts shoulder data st))
      as [r|e] eqn:H; [|exact I].
    unfold EZID_urllib2.mint in H.
    apply bind_ok_inv in H. destruct H as [_ [st1 [_ H]]].
    apply bind_ok_inv in H. destruct H as [c [st2 [_ H]]].
    apply bind_ok_inv in H. destruct H as [out [st3 [_ H]]].
    cbn in H. injection H as <-. apply strip_fixed.
Qed.

(** ** Standard output *)

Section Quiet.

Lemma quiet_ret {A} (a : A) : quiet_on_success (ret a).
Proof. intros st _. reflexivity. Qed.

Lemma quiet_raise {A} (e : exn) : quiet_on_success (@raise A e).
Proof. intros st _. reflexivity. Qed.

Lemma quiet_lift {A} (r : result A) : quiet_on_success (lift r).
Proof. intros st _. reflexivity. Qed.

Lemma quiet_get_self : quiet_on_success get_self.
Proof. intros st _. reflexivity. Qed.

Lemma quiet_send (srv : Server) (r : Request) : quiet_on_success (send srv r).
Proof. intros st _. reflexivity. Qed.

Lemma quiet_set_session_id (sid : option string) :
  quiet_on_success (set_session_id sid).
Proof. intros st _. reflexivity. Qed.

Lemma quiet_bind {A B} (m : M A) (f : A -> M B) :
  quiet_on_success m -> (forall a, quiet_on_success (f a)) ->
  quiet_on_success (bind m f).
Proof.
  intros Hm Hf st [b Hb]. destruct (bind_ok_inv m f st b Hb) as [a [st1 [E Hk]]].
  unfold bind. rewrite E.
  rewrite (Hf a st1) by (now exists b).
  specialize (Hm st). rewrite E in Hm. apply Hm. now exists a.
Qed.

(** A handler that always raises adds nothing to the returns. *)
Lemma quiet_try {A} (m : M A) (h : exn -> M A) :
  quiet_on_success m ->
  (forall e st, exists e', snd (h e st) = Raise e') ->
  quiet_on_success (try_except_HTTPError m h).
Proof.
  intros Hm Hh st [a Ha]. unfold try_except_HTTPError in *.
  specialize (Hm st).
  destruct (m st) as [st1 [x|e]]; [apply Hm; now exists x|].
  destruct e; try discriminate Ha.
  destruct (Hh (HTTPError code msg body) st1) as [e' He'].
  rewrite He' in Ha. discriminate.
Qed.

End Quiet.

Ltac quiet :=
  cbv beta zeta;
  first
    [ apply quiet_ret | apply quiet_raise | apply quiet_lift
    | apply quiet_get_self | apply quiet_send | apply quiet_set_session_id
    | match goal with H : _ |- _ => apply H end
    | apply quiet_bind; [solve [quiet] | intro; solve [quiet]]
    | match goal with
      | |- quiet_on_success (if ?c then _ else _) => destruct c; solve [quiet]
      | |- quiet_on_success (match ?x with _ => _ end) =>
          destruct x; solve [quiet]
      end ].

Lemma perform_quiet (srv : Server) (o : operation) :
  quiet_on_success (perform srv o).
Proof.
  assert (Ho : forall r, quiet_on_success (EZID.opener_open srv r))
    by (intros r; unfold EZID.opener_open; quiet).
  assert (Hg : forall r b, quiet_on_success (EZID._get_request srv r b)).
  { intros r b. unfold EZID._get_request.
    apply quiet_bind; [quiet|]. intros c.
    apply quiet_bind; [|intro; quiet].
    apply quiet_try; [apply Ho|].
    intros e st. destruct e; cbn; eexists; reflexivity. }
  assert (Hl : quiet_on_success (EZID.login srv))
    by (unfold EZID.login, EZID.raise_for_status; quiet).
  assert (Hi : quiet_on_success (EZID.login_if_no_session srv))
    by (unfold EZID.login_if_no_session; quiet).
  destruct o; cbn [perform];
    unfold EZID.logout, EZID.view, EZID.update, EZID.create, EZID.mint,
      EZID.delete; quiet.
Qed.

(** X15. The client of [src/EZID.py] writes to standard output only on
    the way to an exception: an operation that returns has printed
    nothing. *)
Theorem operations_quiet_on_success (srv : Server) (o : operation)
    (st : State) :
  match snd (perform srv o st) with
  | Ok _ => stdout (fst (perform srv o st)) = stdout st
  | Raise _ => True
  end.
Proof.
  destruct (snd (perform srv o st)) as [a|e] eqn:H; [|exact I].
  apply (perform_quiet srv o st). now exists a.
Qed.

(** ** The client of [src/EZID/EZID.py] *)

Section Urllib2.
Variable srv : Server.
Variable accepts : Z -> bool.
Local Open Scope list_scope.

Lemma replace_http_prefix (rest : string) :
  replace "http:" "https:" ("http:" ++ rest)
  = ("https:" ++ replace "http:" "https:" rest)%string.
Proof. reflexivity. Qed.

Lemma replace_https_prefix (rest : string) :
  replace "http:" "https:" ("https:" ++ rest)
  = ("https:" ++ replace "http:" "https:" rest)%string.
Proof. reflexivity. Qed.

Lemma urllib2_get_request_wire (request : Request) (b : bool) (st : State) :
  wire (fst (EZID_urllib2._get_request srv accepts request b st))
  = wire st ++ [with_cookie (self st) request].
Proof.
  unfold EZID_urllib2._get_request, EZID_urllib2.opener_open, bind, get_self,
    send, lift, ret, raise.
  cbv zeta. cbn [self wire stdout].
  destruct (EZID_urllib2.http_response _ _); [|reflexivity].
  destruct b; [|reflexivity].
  destruct (set_cookie _); [|reflexivity].
  destruct (cookie_value _); reflexivity.
Qed.

Lemma urllib2_login_wire (st : State) :
  wire (fst (EZID_urllib2.login srv accepts st))
  = wire st ++ [with_cookie (self st)
                  (urllib_Request "GET"
                     (replace "http:" "https:" (_server (self st))
                      ++ "/" ++ "login"))].
Proof.
  unfold EZID_urllib2.login. unfold bind at 1. unfold get_self at 1.
  unfold bind at 1.
  pose proof (urllib2_get_request_wire
                (urllib_Request "GET"
                   (replace "http:" "https:" (_server (self st))
                    ++ "/" ++ "login")) true st) as Hw.
  destruct (EZID_urllib2._get_request _ _ _ _ _) as [st1 [sid|e]];
    cbn [fst] in *; [|exact Hw].
  unfold bind, set_session_id, get_self, ret. cbn [fst wire]. exact Hw.
Qed.

Lemma urllib2_logout_wire (st : State) :
  wire (fst (EZID_urllib2.logout srv accepts st))
  = wire st ++ [with_cookie (self st)
                  (urllib_Request "GET"
                     (replace "http:" "https:" (_server (self st))
                      ++ "/" ++ "logout"))].
Proof.
  unfold EZID_urllib2.logout. unfold bind at 1. unfold get_self at 1.
  unfold bind at 1.
  pose proof (urllib2_get_request_wire
                (urllib_Request "GET"
                   (replace "http:" "https:" (_server (self st))
                    ++ "/" ++ "logout")) false st) as Hw.
  destruct (EZID_urllib2._get_request _ _ _ _ _) as [st1 [sid|e]];
    cbn [fst] in *; [|exact Hw].
  unfold bind, set_session_id, get_self, ret. cbn [fst wire]. exact Hw.
Qed.

End Urllib2.

(** X16. In [src/EZID/EZID.py], [login] and [logout] go to the [https:]
    form of the server URL: for a server [http:<rest>] or [https:<rest>]
    (with no other [http:] in it) the one request of [login] is a [GET]
    of [https:<rest>/login] and that of [logout] a [GET] of
    [https:<rest>/logout], with the cookie when one is cached, while
    [view] keeps the URL as configured. *)
Theorem urllib2_login_over_https (srv : Server) (accepts : Z -> bool)
    (st : State) (rest identifier : string) :
  _server (self st) = "http:" ++ rest \/ _server (self st) = "https:" ++ rest ->
  occurs "http:" rest = false ->
  wire (fst (EZID_urllib2.login srv accepts st))
  = (wire st ++ [with_cookie (self st)
                   (urllib_Request "GET" ("https:" ++ rest ++ "/login"))])%list
  /\ wire (fst (EZID_urllib2.logout srv accepts st))
     = (wire st ++ [with_cookie (self st)
                      (urllib_Request "GET" ("https:" ++ rest ++ "/logout"))])%list
  /\ wire (fst (EZID_urllib2.view srv accepts identifier st))
     = (wire st ++ [with_cookie (self st)
                      (urllib_Request "GET"
                         (_server (self st) ++ "/id/" ++ identifier))])%list.
Proof.
  intros Hs Hr.
  assert (E : replace "http:" "https:" (_server (self st))
              = "https:" ++ rest).
  { destruct Hs as [-> | ->];
      [rewrite replace_http_prefix | rewrite replace_https_prefix];
      unfold replace; now rewrite replace_from_absent. }
  rewrite urllib2_login_wire, urllib2_logout_wire, E.
  repeat split; try (now rewrite !append_assoc).
  unfold EZID_urllib2.view, bind at 1. unfold get_self at 1.
  now rewrite urllib2_get_request_wire.
Qed.

Lemma urllib2_login_over_https_witness :
  wire (fst (EZID_urllib2.login Scenario.ezid_server (fun _ => true)
               (mkState (mkClient None (mkOpener None None)
                           "http://n2t.net/ezid" None None None) [] [])))
  = [mkRequest "GET" "https://n2t.net/ezid/login" [] None None].
Proof.
  exact (proj1 (urllib2_login_over_https Scenario.ezid_server (fun _ => true)
                  (mkState (mkClient None (mkOpener None None)
                              "http://n2t.net/ezid" None None None) [] [])
                  "//n2t.net/ezid" "" (or_introl eq_refl) eq_refl)).
Defined.

Section Urllib2Session.
Variable srv : Server.
Variable accepts : Z -> bool.
Local Open Scope list_scope.

Lemma endswith_LF_added (s : string) : endswith_LF (s ++ s_LF) = true.
Proof.
  induction s as [|c s IH]; [reflexivity|].
  cbn [append]. destruct (s ++ s_LF)%string eqn:E.
  - destruct s; discriminate.
  - exact IH.
Qed.

Lemma endswith_LF_not_empty (s : string) : endswith_LF s = true -> s <> "".
Proof. destruct s; [discriminate | discriminate]. Qed.

Lemma urllib2_login_cases (st : State) :
  let r := with_cookie (self st)
             (urllib_Request "GET"
                (replace "http:" "https:" (_server (self st)) ++ "/" ++ "login")) in
  let c := srv (wire st) r in
  let st1 := mkState (self st) (wire st ++ [r]) (stdout st) in
  EZID_urllib2.login srv accepts st
  = if ((status_code c =? 201)%Z || accepts (status_code c))%bool
    then match set_cookie c with
         | None => (st1, Raise KeyError)
         | Some h =>
             match cookie_value h with
             | Raise e => (st1, Raise e)
             | Ok v => (fst (set_session_id (Some v) st1), Ok (Some v))
             end
         end
    else (st1, Raise (HTTPError (status_code c) (reason c) (content c))).
Proof.
  cbv zeta.
  unfold EZID_urllib2.login, EZID_urllib2._get_request,
    EZID_urllib2.opener_open, EZID_urllib2.http_response, bind, get_self,
    send, lift, ret, raise.
  cbv zeta. cbn [self wire stdout].
  destruct (status_code _ =? 201)%Z; cbn [orb].
  - destruct (set_cookie _); [|reflexivity].
    destruct (cookie_value _) as [v|e]; [|reflexivity].
    unfold set_session_id. cbn [self wire stdout fst _session_id].
    destruct (opt_truthy (Some v)); reflexivity.
  - destruct (accepts _); [|reflexivity].
    destruct (set_cookie _); [|reflexivity].
    destruct (cookie_value _) as [v|e]; [|reflexivity].
    unfold set_session_id. cbn [self wire stdout fst _session_id].
    destruct (opt_truthy (Some v)); reflexivity.
Qed.

End Urllib2Session.

(** X17. [login] of [src/EZID/EZID.py], through [_get_request] and the
    error processor: the status 201 and the statuses the library
    accepts lead to the cookie parsing, which ends with [KeyError] when
    there is no [Set-Cookie] header and otherwise as the parsing of X9
    does; any other status is an [HTTPError] with status, reason and
    body.  The body of the answer plays no part, and whenever [login]
    raises, the client object is as before. *)
Theorem urllib2_login_outcome (srv : Server) (accepts : Z -> bool)
    (st : State) :
  let c := srv (wire st)
             (with_cookie (self st)
                (urllib_Request "GET"
                   (replace "http:" "https:" (_server (self st))
                    ++ "/" ++ "login"))) in
  snd (EZID_urllib2.login srv accepts st)
  = (if ((status_code c =? 201)%Z || accepts (status_code c))%bool
     then match set_cookie c with
          | None => Raise KeyError
          | Some h =>
              match cookie_value h with
              | Raise e => Raise e
              | Ok v => Ok (Some v)
              end
          end
     else Raise (HTTPError (status_code c) (reason c) (content c)))
  /\ match snd (EZID_urllib2.login srv accepts st) with
     | Raise _ => self (fst (EZID_urllib2.login srv accepts st)) = self st
     | Ok r => _session_id (self (fst (EZID_urllib2.login srv accepts st))) = r
     end.
Proof.
  cbv zeta. rewrite urllib2_login_cases. cbv zeta.
  destruct (_ || _)%bool; [|split; reflexivity].
  destruct (set_cookie _) as [h|]; [|split; reflexivity].
  destruct (cookie_value h) as [v|e]; [|split; reflexivity].
  split; [reflexivity|]. cbn [snd fst].
  unfold set_session_id. cbn [fst self _session_id].
  destruct (opt_truthy (Some v)); reflexivity.
Qed.

(** X18. In [src/EZID/EZID.py] every text [_get_request] returns for
    [login=False] ends with LF, so it is never empty: after a [logout]
    that returns, the session id is the answer of the service (with LF
    at its end), the cookie is made from it, and the session check of
    the next mutating operation finds a session id and sends nothing.
    When [logout] raises, the client object is as before. *)
Theorem urllib2_logout_leaves_session (srv : Server) (accepts : Z -> bool)
    (st : State) :
  match snd (EZID_urllib2.logout srv accepts st) with
  | Ok r =>
      exists b, r = Some b /\ endswith_LF b = true
        /\ _session_id (self (fst (EZID_urllib2.logout srv accepts st)))
           = Some b
        /\ _cookie (self (fst (EZID_urllib2.logout srv accepts st)))
           = Some ("sessionid=" ++ b)
        /\ EZID_urllib2.login_if_no_session srv accepts
             (fst (EZID_urllib2.logout srv accepts st))
           = (fst (EZID_urllib2.logout srv accepts st), Ok tt)
  | Raise _ => self (fst (EZID_urllib2.logout srv accepts st)) = self st
  end.
Proof.
  unfold EZID_urllib2.logout, bind, get_self, ret.
  rewrite urllib2_get_request_once. cbv zeta.
  destruct (_ || _)%bool; [|reflexivity].
  set (b := if endswith_LF _ then _ else _).
  assert (Hb : endswith_LF b = true).
  { unfold b. destruct (endswith_LF (content _)) eqn:E; [exact E|].
    apply endswith_LF_added. }
  assert (Hne : b <> "") by (now apply endswith_LF_not_empty).
  rewrite set_session_id_truthy by exact Hne.
  cbn [snd fst self _session_id _cookie].
  exists b. repeat split; try assumption.
  unfold EZID_urllib2.login_if_no_session, bind, get_self.
  cbn [self _session_id].
  apply opt_truthy_Some in Hne. now rewrite Hne.
Qed.

(** ** The command line *)

Section ProcessArgsFacts.
Local Open Scope list_scope.

Lemma split_max1_colon (x : ascii) (s : string) :
  has_char x s = true -> split_max1 x s = [str_before x s; str_after x s].
Proof.
  induction s as [|c s IH]; [discriminate|].
  cbn [has_char split_max1 str_before str_after].
  destruct (Ascii.eqb c x); [reflexivity|].
  intros H. now rewrite (IH H).
Qed.

Lemma before_after (x : ascii) (s : string) :
  has_char x s = true ->
  s = (str_before x s ++ String x (str_after x s))%string
  /\ has_char x (str_before x s) = false.
Proof.
  induction s as [|c s IH]; [discriminate|].
  cbn [has_char str_before str_after].
  destruct (Ascii.eqb_spec c x) as [->|Hne]; [intros _; now split|].
  intros H. destruct (IH H) as [E1 E2]. cbn [append has_char].
  split; [now rewrite <- E1|].
  destruct (Ascii.eqb_spec c x); [congruence | exact E2].
Qed.

Lemma credentials_step (a1 : string) :
  (if has_char ":" a1 then
     match split_max1 ":" a1 with
     | [u; p] => Returned (Some [("username", u); ("password", p)])
     | _ => ValueError
     end
   else Returned None)
  = Returned (credentials_of a1).
Proof.
  unfold credentials_of. destruct (has_char ":" a1) eqn:E; [|reflexivity].
  now rewrite split_max1_colon.
Qed.

Lemma data_loop_spec (l : list string) :
  forall fuel pre rest acc,
    l = pre ++ rest -> List.length rest <= fuel ->
    data_loop l (range2_fuel fuel (List.length pre) (List.length l)) acc
    = if Nat.even (List.length rest)
      then Ok (fold_left (fun d kv => dict_set d (fst kv) (snd kv))
                 (pair_up rest) acc)
      else Raise IndexError.
Proof.
  induction fuel as [|fuel IH]; intros pre rest acc Hl Hfuel.
  - destruct rest; [reflexivity | simpl in Hfuel; lia].
  - cbn [range2_fuel].
    destruct rest as [|x rest].
    + replace (List.length pre <? List.length l)%nat with false; [reflexivity|].
      symmetry. apply Nat.ltb_ge. subst l. rewrite app_nil_r. lia.
    + replace (List.length pre <? List.length l)%nat with true.
      2:{ symmetry. apply Nat.ltb_lt. subst l. rewrite length_app. simpl. lia. }
      cbn [data_loop]. unfold list_index.
      assert (H0 : nth_error l (List.length pre) = Some x).
      { subst l. rewrite nth_error_app2 by lia. now rewrite Nat.sub_diag. }
      destruct rest as [|y rest].
      * assert (H1 : nth_error l (List.length pre + 1) = None).
        { apply nth_error_None. subst l. rewrite length_app. simpl. lia. }
        now rewrite H1.
      * assert (H1 : nth_error l (List.length pre + 1) = Some y).
        { subst l. rewrite nth_error_app2 by lia.
          replace (List.length pre + 1 - List.length pre)%nat with 1%nat by lia.
          reflexivity. }
        rewrite H1, H0.
        replace (List.length pre + 2)%nat with (List.length (pre ++ [x; y]))
          by (rewrite length_app; simpl; lia).
        rewrite (IH (pre ++ [x; y]) rest).
        -- reflexivity.
        -- subst l. now rewrite <- app_assoc.
        -- simpl in Hfuel. lia.
Qed.

Lemma data_loop_pairs (l : list string) :
  data_loop l (range2 (List.length l)) []
  = if Nat.even (List.length l) then Ok (dict_of_pairs (pair_up l))
    else Raise IndexError.
Proof.
  unfold range2, dict_of_pairs.
  change (range2_fuel (List.length l) 0 (List.length l))
    with (range2_fuel (List.length l) (@List.length string []) (List.length l)).
  now rewrite (data_loop_spec l (List.length l) [] l []) by (reflexivity || lia).
Qed.

Variable table : list (string * arity).

Lemma process_args_short (args : list string) :
  List.length args < 3 -> process_args table args = UsageExit.
Proof.
  intros H. unfold process_args.
  replace (Z.of_nat (List.length args) <? 3)%Z with true; [reflexivity|].
  symmetry. apply Z.ltb_lt. lia.
Qed.

Lemma process_args_ambiguous (a0 a1 a2 : string) (rest : list string) :
  List.length (filter (fun o => startswith a2 o) (map fst table)) <> 1 ->
  process_args table (a0 :: a1 :: a2 :: rest) = UsageExit.
Proof.
  intros H. unfold process_args.
  replace (Z.of_nat (List.length (a0 :: a1 :: a2 :: rest)) <? 3)%Z with false
    by (symmetry; apply Z.ltb_ge; cbn [List.length]; lia).
  cbn [list_index nth_error of_result cbind].
  rewrite credentials_step. cbn [cbind].
  apply Nat.eqb_neq in H. now rewrite H.
Qed.

Lemma process_args_resolved (a0 a1 a2 : string) (rest : list string)
    (op : string) (ar : arity) :
  filter (fun o => startswith a2 o) (map fst table) = [op] ->
  table_lookup table op = Some ar ->
  process_args table (a0 :: a1 :: a2 :: rest)
  = if negb (arity_holds ar (Z.of_nat (List.length rest))) then UsageExit
    else
      data <~ (if takes_data op then
                 match rest with
                 | _ :: _ :: _ =>
                     d <~ of_result (data_loop (tl rest)
                                       (range2 (List.length (tl rest))) []) ;;
                     Returned (Some d)
                 | _ => Returned None
                 end
               else Returned None) ;;
      Returned (credentials_of a1, None, op, hd_error rest, data).
Proof.
  intros Hf Ht. unfold process_args.
  replace (Z.of_nat (List.length (a0 :: a1 :: a2 :: rest)) <? 3)%Z with false
    by (symmetry; apply Z.ltb_ge; cbn [List.length]; lia).
  cbn [list_index nth_error of_result cbind].
  rewrite credentials_step. cbn [cbind]. rewrite Hf.
  cbn [List.length Nat.eqb negb list_index nth_error of_result cbind].
  unfold table_item. rewrite Ht. cbn [cbind].
  replace (Z.of_nat (S (S (S (List.length rest)))) - 3)%Z
    with (Z.of_nat (List.length rest)) by lia.
  assert (Ha : (match ar with
                | ArgCount n => negb (Z.of_nat (List.length rest) =? n)%Z
                | ArgTest f => negb (f (Z.of_nat (List.length rest)))
                end) = negb (arity_holds ar (Z.of_nat (List.length rest))))
    by (destruct ar; reflexivity).
  rewrite Ha. destruct (negb (arity_holds ar _)); [reflexivity|].
  fold (takes_data op).
  destruct rest as [|a3 [|a4 rest']].
  - cbn [List.length]. cbn. destruct (takes_data op); reflexivity.
  - cbn [List.length]. cbn. destruct (takes_data op); reflexivity.
  - assert (H3 : (3 <? Z.of_nat (S (S (S (List.length (a3 :: a4 :: rest'))))))%Z
                 = true) by (apply Z.ltb_lt; cbn [List.length]; lia).
    assert (H4 : (4 <? Z.of_nat (S (S (S (List.length (a3 :: a4 :: rest'))))))%Z
                 = true) by (apply Z.ltb_lt; cbn [List.length]; lia).
    rewrite H3, H4.
    cbn [list_index nth_error of_result cbind skipn tl hd_error].
    reflexivity.
Qed.

End ProcessArgsFacts.

Section TableFacts.
Local Open Scope list_scope.

Lemma odd_count_odd (n : nat) : odd_count (Z.of_nat n) = Nat.odd n.
Proof.
  unfold odd_count.
  destruct (Nat.Even_or_Odd n) as [[k ->] | [k ->]].
  - replace (Z.of_nat (2 * k)) with (Z.of_nat k * 2)%Z by lia.
    rewrite Z.mod_mul by lia.
    replace (Nat.odd (2 * k)) with false; [reflexivity|].
    symmetry. rewrite <- Nat.negb_even.
    replace (Nat.even (2 * k)) with true; [reflexivity|].
    symmetry. apply Nat.even_spec. now exists k.
  - replace (Z.of_nat (2 * k + 1)) with (1 + Z.of_nat k * 2)%Z by lia.
    rewrite Z.mod_add by lia.
    replace (Nat.odd (2 * k + 1)) with true; [reflexivity|].
    symmetry. apply Nat.odd_spec. now exists k.
Qed.

Lemma table_lookup_in (t : list (string * arity)) (k : string) :
  In k (map fst t) -> exists ar, table_lookup t k = Some ar.
Proof.
  induction t as [|[k' a] t IH]; [intros []|].
  cbn [map fst In table_lookup]. intros [<- | H].
  - rewrite String.eqb_refl. now exists a.
  - destruct (String.eqb k k'); [now exists a | exact (IH H)].
Qed.

(** Once the operation and its table value are known, [process_args]
    on a table whose data operations have the odd-count test never
    raises. *)
Lemma resolved_never_raises (t : list (string * arity)) (a0 a1 a2 : string)
    (rest : list string) (op : string) (ar : arity) :
  filter (fun o => startswith a2 o) (map fst t) = [op] ->
  table_lookup t op = Some ar ->
  (takes_data op = true -> ar = ArgTest odd_count) ->
  match process_args t (a0 :: a1 :: a2 :: rest) with
  | Returned (c, s, o, i, d) =>
      c = credentials_of a1 /\ s = None /\ o = op /\ i = hd_error rest
      /\ d = (if takes_data op then
                match rest with
                | _ :: _ :: _ => Some (dict_of_pairs (pair_up (tl rest)))
                | _ => None
                end
              else None)
  | UsageExit => arity_holds ar (Z.of_nat (List.length rest)) = false
  | _ => False
  end.
Proof.
  intros Hf Ht Hd. rewrite (process_args_resolved t a0 a1 a2 rest op ar Hf Ht).
  destruct (arity_holds ar (Z.of_nat (List.length rest))) eqn:Ha;
    cbn [negb]; [|reflexivity].
  destruct (takes_data op) eqn:Etd; [|cbn; repeat split].
  destruct rest as [|a3 [|a4 rest']]; [cbn; repeat split | cbn; repeat split |].
  rewrite (Hd eq_refl) in Ha. cbn [arity_holds] in Ha.
  rewrite odd_count_odd in Ha. cbn [List.length] in Ha.
  cbn [tl]. rewrite data_loop_pairs.
  assert (He : Nat.even (List.length (a4 :: rest')) = true).
  { cbn [List.length]. rewrite Nat.even_succ. exact Ha. }
  rewrite He. cbn. repeat split.
Qed.

End TableFacts.

(** The keys of the two tables, one by one. *)
Ltac table_key H :=
  cbn [map fst In CLI.operations CLI_urllib2.operations] in H;
  repeat match type of H with
         | _ \/ _ => destruct H as [H | H]
         end;
  [ subst .. | destruct H ].

Section ProcessArgsCases.
Local Open Scope list_scope.

Lemma takes_data_cases (op : string) :
  takes_data op = true -> op = "mint" \/ op = "create" \/ op = "update".
Proof.
  unfold takes_data. cbn [existsb].
  destruct (String.eqb_spec op "mint"); [now left|].
  destruct (String.eqb_spec op "create"); [now right; left|].
  destruct (String.eqb_spec op "update"); [now right; right | discriminate].
Qed.

Lemma odd_for_data_CLI : odd_for_data CLI.operations.
Proof.
  intros op ar Ht Hd.
  destruct (takes_data_cases op Hd) as [-> | [-> | ->]];
    cbn in Ht; now injection Ht as <-.
Qed.

Lemma odd_for_data_CLI_urllib2 : odd_for_data CLI_urllib2.operations.
Proof.
  intros op ar Ht Hd.
  destruct (takes_data_cases op Hd) as [-> | [-> | ->]];
    cbn in Ht; now injection Ht as <-.
Qed.

(** All that [process_args] can do on a list of three arguments or
    more. *)
Lemma process_args_cases (t : list (string * arity)) (a0 a1 a2 : string)
    (rest : list string) :
  odd_for_data t ->
  match process_args t (a0 :: a1 :: a2 :: rest) with
  | Returned (c, s, o, i, d) =>
      c = credentials_of a1 /\ s = None
      /\ filter (fun x => startswith a2 x) (map fst t) = [o]
      /\ i = hd_error rest
      /\ d = (if takes_data o then
                match rest with
                | _ :: _ :: _ => Some (dict_of_pairs (pair_up (tl rest)))
                | _ => None
                end
              else None)
  | UsageExit => True
  | _ => False
  end.
Proof.
  intros Hok.
  destruct (filter (fun x => startswith a2 x) (map fst t))
    as [|op [|op2 l]] eqn:Hf.
  - rewrite process_args_ambiguous; [exact I | rewrite Hf; discriminate].
  - assert (Hin : In op (map fst t)).
    { assert (H : In op (filter (fun x => startswith a2 x) (map fst t)))
        by (rewrite Hf; now left).
      apply filter_In in H. tauto. }
    destruct (table_lookup_in t op Hin) as [ar Ht].
    pose proof (resolved_never_raises t a0 a1 a2 rest op ar Hf Ht
                  (Hok op ar Ht)) as H.
    destruct (process_args t (a0 :: a1 :: a2 :: rest))
      as [[[[[c s] o] i] d]| | |]; try exact I; try exact H.
    destruct H as [H1 [H2 [H3 [H4 H5]]]]. subst o. repeat split; assumption.
  - rewrite process_args_ambiguous; [exact I | rewrite Hf; discriminate].
Qed.

End ProcessArgsCases.

(** X19. [process_args] never ends with an exception, for both tables:
    it returns or leaves through [_usageError].  The argument count
    test of [mint], [create] and [update] makes the number of words
    after the identifier even, so the loop over the label/value pairs
    never reads [l[i+1]] out of range, and unpacking [split(':', 1)]
    always finds two parts.  With fewer than three arguments it is the
    usage exit. *)
Theorem process_args_never_raises (args : list string) :
  match CLI.process_args args with
  | Returned _ | UsageExit => True
  | ValueError | Raised _ => False
  end
  /\ match CLI_urllib2.process_args args with
     | Returned _ | UsageExit => True
     | ValueError | Raised _ => False
     end
  /\ match args with
     | _ :: _ :: _ :: _ => True
     | _ => CLI.process_args args = UsageExit
            /\ CLI_urllib2.process_args args = UsageExit
     end.
Proof.
  unfold CLI.process_args, CLI_urllib2.process_args.
  split; [|split].
  - destruct args as [|a0 [|a1 [|a2 rest]]];
      try (rewrite process_args_short by (cbn; lia); exact I).
    pose proof (process_args_cases CLI.operations a0 a1 a2 rest
                  odd_for_data_CLI) as H.
    destruct (process_args CLI.operations (a0 :: a1 :: a2 :: rest));
      try exact I; exact H.
  - destruct args as [|a0 [|a1 [|a2 rest]]];
      try (rewrite process_args_short by (cbn; lia); exact I).
    pose proof (process_args_cases CLI_urllib2.operations a0 a1 a2 rest
                  odd_for_data_CLI_urllib2) as H.
    destruct (process_args CLI_urllib2.operations (a0 :: a1 :: a2 :: rest));
      try exact I; exact H.
  - destruct args as [|a0 [|a1 [|a2 rest]]]; try exact I;
      split; apply process_args_short; cbn; lia.
Qed.

(** X20. The credentials [process_args] returns: when [args[1]] holds a
    colon, the user name is the text before its first colon and the
    password all the text after it (so a password may hold colons, a
    user name cannot); without a colon there are no credentials.  The
    session id it returns is [None] in every case. *)
Theorem process_args_credentials (a0 a1 : string) (rest : list string) :
  match CLI.process_args (a0 :: a1 :: rest) with
  | Returned (c, s, _, _, _) =>
      s = None
      /\ if has_char ":" a1
         then exists u p,
             c = Some [("username", u); ("password", p)]
             /\ a1 = u ++ ":" ++ p /\ has_char ":" u = false
         else c = None
  | _ => True
  end.
Proof.
  unfold CLI.process_args.
  destruct rest as [|a2 rest];
    [rewrite process_args_short by (cbn; lia); exact I|].
  pose proof (process_args_cases CLI.operations a0 a1 a2 rest
                odd_for_data_CLI) as H.
  destruct (process_args CLI.operations (a0 :: a1 :: a2 :: rest))
    as [[[[[c s] o] i] d]| | |]; try exact I.
  destruct H as [Hc [Hs _]]. split; [exact Hs|].
  unfold credentials_of in Hc.
  destruct (has_char ":" a1) eqn:E; [|exact Hc].
  destruct (before_after ":" a1 E) as [E1 E2].
  exists (str_before ":" a1), (str_after ":" a1). repeat split; assumption.
Qed.

(** X21. How the operation is picked from [args[2]]: the operation
    returned is the one key of the table that [args[2]] is a prefix of,
    and no other key has that prefix.  A word that is a prefix of [log]
    (the empty word, [l], [lo], [log]) stands for both [login] and
    [logout] and is a usage exit, whatever follows. *)
Theorem process_args_operation (a0 a1 a2 : string) (rest : list string) :
  match CLI.process_args (a0 :: a1 :: a2 :: rest) with
  | Returned (_, _, o, _, _) =>
      In o (map fst CLI.operations) /\ startswith a2 o = true
      /\ forall o', In o' (map fst CLI.operations) ->
                    startswith a2 o' = true -> o' = o
  | _ => True
  end
  /\ (startswith a2 "log" = true ->
      CLI.process_args (a0 :: a1 :: a2 :: rest) = UsageExit).
Proof.
  unfold CLI.process_args. split.
  - pose proof (process_args_cases CLI.operations a0 a1 a2 rest
                  odd_for_data_CLI) as H.
    destruct (process_args CLI.operations (a0 :: a1 :: a2 :: rest))
      as [[[[[c s] o] i] d]| | |]; try exact I.
    destruct H as [_ [_ [Hf _]]].
    assert (Hin : forall x, In x (map fst CLI.operations) /\ startswith a2 x = true
                            <-> In x [o]).
    { intros x. rewrite <- Hf. symmetry. apply filter_In. }
    destruct (proj2 (Hin o) (or_introl eq_refl)) as [H1 H2].
    repeat split; try assumption.
    intros o' Ho' Hs'. destruct (proj1 (Hin o') (conj Ho' Hs')) as [E|[]].
    now symmetry.
  - intros Hlog. apply process_args_ambiguous.
    assert (Hext : forall p s t, startswith p s = true ->
                                 startswith p (s ++ t) = true).
    { induction p as [|x p IH]; intros s t0 Hs; [reflexivity|].
      destruct s as [|y s]; [discriminate|]. cbn [append startswith] in *.
      destruct (Ascii.eqb x y); [now apply IH | discriminate]. }
    pose proof (Hext a2 "log" "in" Hlog) as H1.
    pose proof (Hext a2 "log" "out" Hlog) as H2.
    cbn [append] in H1, H2.
    cbn [map fst CLI.operations filter]. rewrite H1, H2.
    repeat match goal with
           | |- context [if ?b then _ else _] => destruct b
           end; cbn [List.length]; lia.
Qed.

Lemma process_args_operation_witness :
  startswith "lo" "log" = true
  /\ CLI.process_args ["client"; "user:pw"; "lo"] = UsageExit.
Proof.
  split; [reflexivity|].
  exact (proj2 (process_args_operation "client" "user:pw" "lo" []) eq_refl).
Defined.

Section DictFacts.
Local Open Scope list_scope.

Lemma dict_lookup_set (d : dict) (k v k' : string) :
  dict_lookup (dict_set d k v) k'
  = if String.eqb k' k then Some v else dict_lookup d k'.
Proof.
  induction d as [|[x y] d IH]; cbn [dict_set dict_lookup].
  - reflexivity.
  - destruct (String.eqb_spec k x) as [->|Hkx]; cbn [dict_lookup].
    + destruct (String.eqb k' x); reflexivity.
    + rewrite IH. destruct (String.eqb_spec k' x) as [->|_]; [|reflexivity].
      destruct (String.eqb_spec x k); [congruence | reflexivity].
Qed.

Lemma dict_lookup_app (a b : dict) (k : string) :
  dict_lookup (a ++ b) k
  = match dict_lookup a k with Some v => Some v | None => dict_lookup b k end.
Proof.
  induction a as [|[x y] a IH]; [reflexivity|].
  cbn [app dict_lookup]. destruct (String.eqb k x); [reflexivity | exact IH].
Qed.

Lemma dict_lookup_fold (ps acc : dict) (k : string) :
  dict_lookup (fold_left (fun d kv => dict_set d (fst kv) (snd kv)) ps acc) k
  = match dict_lookup (rev ps) k with
    | Some v => Some v
    | None => dict_lookup acc k
    end.
Proof.
  revert acc. induction ps as [|[x y] ps IH]; intros acc; [reflexivity|].
  cbn [fold_left rev fst snd]. rewrite IH, dict_lookup_app, dict_lookup_set.
  cbn [dict_lookup]. destruct (dict_lookup (rev ps) k); [reflexivity|].
  destruct (String.eqb k x); reflexivity.
Qed.

Lemma dict_set_keys (d : dict) (k v : string) :
  map fst (dict_set d k v)
  = if existsb (String.eqb k) (map fst d) then map fst d
    else map fst d ++ [k].
Proof.
  induction d as [|[x y] d IH]; [reflexivity|].
  cbn [dict_set map fst existsb].
  destruct (String.eqb k x); [reflexivity|].
  cbn [map fst orb]. rewrite IH.
  destruct (existsb (String.eqb k) (map fst d)); reflexivity.
Qed.

Lemma dict_set_NoDup (d : dict) (k v : string) :
  NoDup (map fst d) -> NoDup (map fst (dict_set d k v)).
Proof.
  intros H. rewrite dict_set_keys.
  destruct (existsb (String.eqb k) (map fst d)) eqn:E; [exact H|].
  apply NoDup_app; [exact H | repeat constructor; intros [] |].
  intros x Hx [Hk|[]]. subst x.
  assert (Ht : existsb (String.eqb k) (map fst d) = true).
  { apply existsb_exists. exists k. split; [exact Hx | apply String.eqb_refl]. }
  congruence.
Qed.

Lemma dict_of_pairs_NoDup (ps : dict) : NoDup (map fst (dict_of_pairs ps)).
Proof.
  unfold dict_of_pairs.
  assert (H : forall acc, NoDup (map fst acc) ->
     NoDup (map fst (fold_left (fun d kv => dict_set d (fst kv) (snd kv)) ps acc))).
  { induction ps as [|p ps IH]; intros acc Hacc; [exact Hacc|].
    cbn [fold_left]. apply IH. now apply dict_set_NoDup. }
  apply H. constructor.
Qed.

End DictFacts.

(** X22. The data [process_args] returns.  For [mint], [create] and
    [update] with words after the identifier it is the dict filled from
    the consecutive label/value pairs: no label occurs twice in it, and
    a label given several times has the value of its last pair.  With
    no word after the identifier, and for every other operation, it is
    [None].  The identifier is the word after the operation. *)
Theorem process_args_data (a0 a1 a2 : string) (rest : list string) :
  match CLI.process_args (a0 :: a1 :: a2 :: rest) with
  | Returned (_, _, o, i, d) =>
      i = hd_error rest
      /\ match d with
         | Some data =>
             takes_data o = true /\ 2 <= List.length rest
             /\ NoDup (map fst data)
             /\ forall k, dict_lookup data k
                          = dict_lookup (rev (pair_up (tl rest))) k
         | None => takes_data o = false \/ List.length rest <= 1
         end
  | _ => True
  end.
Proof.
  unfold CLI.process_args.
  pose proof (process_args_cases CLI.operations a0 a1 a2 rest
                odd_for_data_CLI) as H.
  destruct (process_args CLI.operations (a0 :: a1 :: a2 :: rest))
    as [[[[[c s] o] i] d]| | |]; try exact I.
  destruct H as [_ [_ [_ [Hi Hd]]]]. split; [exact Hi|].
  destruct (takes_data o); [|subst d; now left].
  destruct rest as [|a3 [|a4 rest']]; subst d.
  - right. cbn. lia.
  - right. cbn. lia.
  - repeat split.
    + cbn [List.length]. lia.
    + apply dict_of_pairs_NoDup.
    + intros k. unfold dict_of_pairs. rewrite dict_lookup_fold.
      cbn [dict_lookup]. now destruct (dict_lookup _ k).
Qed.

(** ** [main] *)

Section MainFacts.
Variable srv : Server.
Local Open Scope list_scope.

Lemma init_main_client (a1 : string) :
  __init__ CLI.SERVER None (credentials_of a1) None = Ok (main_client a1).
Proof.
  unfold __init__, main_client, credentials_of.
  destruct (has_char ":" a1); reflexivity.
Qed.

Lemma process_args_no_colon (t : list (string * arity)) (a0 sid : string)
    (rest : list string) :
  has_char ":" sid = false ->
  process_args t (a0 :: sid :: rest) = process_args t (a0 :: "-" :: rest).
Proof.
  intros H. unfold process_args. cbn [List.length].
  destruct (Z.of_nat (S (S (List.length rest))) <? 3)%Z; [reflexivity|].
  cbn [list_index nth_error of_result cbind].
  rewrite !credentials_step. unfold credentials_of. rewrite H.
  reflexivity.
Qed.

(** [process_args] on an operation written in full. *)
Lemma process_args_named (a0 a1 op : string) (rest : list string) (ar : arity) :
  filter (fun o => startswith op o) (map fst CLI.operations) = [op] ->
  table_lookup CLI.operations op = Some ar ->
  arity_holds ar (Z.of_nat (List.length rest)) = true ->
  List.length rest <= 1 ->
  CLI.process_args (a0 :: a1 :: op :: rest)
  = Returned (credentials_of a1, None, op, hd_error rest, None).
Proof.
  intros Hf Ht Ha Hl. unfold CLI.process_args.
  rewrite (process_args_resolved CLI.operations a0 a1 op rest op ar Hf Ht), Ha.
  cbn [negb]. destruct rest as [|a3 [|a4 rest']];
    [| |cbn [List.length] in Hl; lia];
    destruct (takes_data op); reflexivity.
Qed.

Lemma main_run (a0 a1 op : string) (rest : list string) (ar : arity)
    (w : list Request) (out : list string) :
  filter (fun o => startswith op o) (map fst CLI.operations) = [op] ->
  table_lookup CLI.operations op = Some ar ->
  arity_holds ar (Z.of_nat (List.length rest)) = true ->
  List.length rest <= 1 ->
  CLI.main srv (a0 :: a1 :: op :: rest) w out
  = (let (st, r) :=
       try_except_HTTPError (CLI.main_try srv op (hd_error rest) None)
         CLI.main_except (mkState (main_client a1) w out) in
     (wire st, stdout st, of_result r)).
Proof.
  intros Hf Ht Ha Hl. unfold CLI.main.
  now rewrite (process_args_named a0 a1 op rest ar Hf Ht Ha Hl),
    init_main_client.
Qed.

End MainFacts.

(** X23. Two command lines that [main] accepts and does nothing for:
    [logout], and [update] with an identifier and no label/value pair.
    No request is sent, nothing is printed, and [main] returns. *)
Theorem main_does_nothing (srv : Server) (a0 a1 identifier : string)
    (w : list Request) (out : list string) :
  CLI.main srv [a0; a1; "logout"] w out = (w, out, Returned tt)
  /\ CLI.main srv [a0; a1; "update"; identifier] w out = (w, out, Returned tt).
Proof.
  split.
  - rewrite (main_run srv a0 a1 "logout" [] (ArgCount 0));
      [reflexivity | reflexivity | reflexivity | reflexivity | cbn; lia].
  - rewrite (main_run srv a0 a1 "update" [identifier] (ArgTest odd_count));
      [reflexivity | reflexivity | reflexivity | reflexivity | cbn; lia].
Qed.

(** X24. A session id given as [args[1]] is dropped: for a word with
    no colon, [process_args] and [main] do exactly what they do for
    [-], so the client [main] builds never has the session id and a
    mutating operation starts with a login without credentials. *)
Theorem main_drops_session_id (srv : Server) (a0 sid : string)
    (rest : list string) (w : list Request) (out : list string) :
  has_char ":" sid = false ->
  CLI.process_args (a0 :: sid :: rest) = CLI.process_args (a0 :: "-" :: rest)
  /\ CLI.main srv (a0 :: sid :: rest) w out
     = CLI.main srv (a0 :: "-" :: rest) w out.
Proof.
  intros H.
  assert (E : CLI.process_args (a0 :: sid :: rest)
              = CLI.process_args (a0 :: "-" :: rest))
    by (apply process_args_no_colon; exact H).
  split; [exact E|]. unfold CLI.main. now rewrite E.
Qed.

Lemma main_drops_session_id_witness :
  has_char ":" "abc123" = false
  /\ CLI.main Scenario.ezid_server
       ["client"; "abc123"; "delete"; "ark:/99999/fk412345"] [] []
     = CLI.main Scenario.ezid_server
         ["client"; "-"; "delete"; "ark:/99999/fk412345"] [] [].
Proof.
  split; [reflexivity|].
  exact (proj2 (main_drops_session_id Scenario.ezid_server "client" "abc123"
                  ["delete"; "ark:/99999/fk412345"] [] [] eq_refl)).
Defined.

(** X25. [main] catches the [HTTPError] of [urllib] only.  When the
    login of a [delete], [create] or [mint] is answered with a status in
    400..599, the error of [requests] leaves [main] uncaught: the login
    request is the only request, nothing is printed about the error
    ([mint] has printed its [MINTING] line before), and the exception
    carries status, reason and body. *)
Theorem main_login_error_uncaught (srv : Server) (a0 a1 identifier : string)
    (w : list Request) (out : list string) :
  (400 <= status_code (srv w (EZID.login_request (main_client a1))) < 600)%Z ->
  let login := EZID.login_request (main_client a1) in
  let res := srv w login in
  let e := RequestsHTTPError (status_code res) (reason res) (content res) in
  CLI.main srv [a0; a1; "delete"; identifier] w out
  = ((w ++ [login])%list, out, Raised e)
  /\ CLI.main srv [a0; a1; "create"; identifier] w out
     = ((w ++ [login])%list, out, Raised e)
  /\ CLI.main srv [a0; a1; "mint"; identifier] w out
     = ((w ++ [login])%list, (out ++ [("MINTING" ++ s_LF)%string])%list,
        Raised e).
Proof.
  intros Hres login res e.
  assert (Hl : forall o, EZID.login_if_no_session srv
                           (mkState (main_client a1) w o)
                         = (mkState (main_client a1) (w ++ [login])%list o,
                            Raise e)).
  { intros o.
    exact (login_if_no_session_rejected srv (mkState (main_client a1) w o)
             eq_refl Hres). }
  repeat split.
  - rewrite (main_run srv a0 a1 "delete" [identifier] (ArgTest odd_count));
      [|reflexivity | reflexivity | reflexivity | cbn; lia].
    cbn [CLI.main_try String.eqb Ascii.eqb Bool.eqb hd_error str_of].
    unfold try_except_HTTPError, EZID.delete, bind. now rewrite Hl.
  - rewrite (main_run srv a0 a1 "create" [identifier] (ArgTest odd_count));
      [|reflexivity | reflexivity | reflexivity | cbn; lia].
    cbn [CLI.main_try String.eqb Ascii.eqb Bool.eqb hd_error str_of].
    unfold try_except_HTTPError, EZID.create, bind. now rewrite Hl.
  - rewrite (main_run srv a0 a1 "mint" [identifier] (ArgTest odd_count));
      [|reflexivity | reflexivity | reflexivity | cbn; lia].
    cbn [CLI.main_try String.eqb Ascii.eqb Bool.eqb hd_error str_of].
    unfold try_except_HTTPError, EZID.mint, bind, print.
    cbn [self wire stdout]. now rewrite Hl.
Qed.

Lemma main_login_error_uncaught_witness :
  CLI.main Scenario.ezid_server ["client"; "-"; "delete"; "ark:/99999/fk4"]
    [] []
  = ([mkRequest "GET" "https://ezid.cdlib.org/login" [] None None], [],
     Raised (RequestsHTTPError 401 "UNAUTHORIZED"
               ("error: unauthorized" ++ s_LF))).
Proof.
  refine (proj1 (main_login_error_uncaught Scenario.ezid_server "client" "-"
                   "ark:/99999/fk4" [] [] _)).
  change (400 <= 401 < 600)%Z. lia.
Defined.

(** X26. [main] for [view]: the [HTTPError] of [urllib] never leaves
    [main], which catches it.  When [main] returns, what it has printed
    follows from the status of the response the HTTP library ended
    with.  For a status in 200..299 it is the body.  For any other
    status it is three lines: from [_get_request] the [repr] of the
    bytes of the body, then from [main] the status and the reason, then
    the [repr] of what is left to read of the answer, which is the
    empty bytes value [b'']. *)
Theorem main_view (srv : Server) (a0 a1 identifier : string)
    (w : list Request) (out : list string) :
  let final :=
    srv w (urllib_Request "GET" (CLI.SERVER ++ "/id/" ++ identifier)) in
  let m := CLI.main srv [a0; a1; "view"; identifier] w out in
  (forall code msg body, snd m <> Raised (HTTPError code msg body))
  /\ match snd m with
     | Returned _ =>
         snd (fst m)
         = if ((200 <=? status_code final) && (status_code final <? 300))%Z
           then (out ++ [content final])%list
           else (out ++ [bytes_repr (utf8 (content final));
                         (str_of_Z (status_code final) ++ " "
                          ++ reason final)%string;
                         "b''"])%list
     | _ => True
     end.
Proof.
  cbv zeta.
  rewrite (main_run srv a0 a1 "view" [identifier] (ArgCount 1));
    [|reflexivity | reflexivity | reflexivity | cbn; lia].
  cbn [CLI.main_try String.eqb Ascii.eqb Bool.eqb hd_error str_of].
  unfold try_except_HTTPError, EZID.view, bind, get_self.
  rewrite get_request_once. cbv zeta.
  cbn [self main_client _server _cookie with_cookie opt_truthy].
  destruct (_ && _)%bool.
  - split; [discriminate | reflexivity].
  - cbn [CLI.main_except]. unfold bind, print.
    cbn [self wire stdout of_result fst snd].
    split; [discriminate|]. now rewrite <- !app_assoc.
Qed.

(** ** The requests of the mutating operations *)

(** X27. The request each mutating operation of [src/EZID.py] puts on
    the wire once a session id is cached, with the cookie added:
    [update] is a [POST] of [<server>/id/<identifier>] whose body is the
    ANVL text of the data, also for an empty dict; [create] is a [PUT]
    of the same URL and [mint] a [POST] of [<server>/shoulder/<shoulder>],
    both with the ANVL body and the content type only when the data is
    a dict that is not empty; [delete] is a [DELETE] of
    [<server>/id/<identifier>] with the content type and no body. *)
Theorem mutating_requests (srv : Server) (st : State)
    (identifier shoulder : string) (data : dict) (opt : option dict) :
  opt_truthy (_session_id (self st)) = true ->
  let content_type := ("Content-Type", "text/plain; charset=UTF-8") in
  let id_url := _server (self st) ++ "/id/" ++ identifier in
  let body_of r :=
    match opt with
    | Some (e :: d) =>
        mkRequest (req_method r) (req_url r) [content_type]
          (Some (formatAnvlFromDict (e :: d))) None
    | _ => r
    end in
  wire (fst (EZID.update srv identifier data st))
  = (wire st ++ [with_cookie (self st)
                   (mkRequest "POST" id_url [content_type]
                      (Some (formatAnvlFromDict data)) None)])%list
  /\ wire (fst (EZID.create srv identifier opt st))
     = (wire st ++ [with_cookie (self st)
                      (body_of (mkRequest "PUT" id_url [] None None))])%list
  /\ wire (fst (EZID.mint srv shoulder opt st))
     = (wire st ++ [with_cookie (self st)
                      (body_of (mkRequest "POST"
                                  (_server (self st) ++ "/shoulder/" ++ shoulder)
                                  [] None None))])%list
  /\ wire (fst (EZID.delete srv identifier st))
     = (wire st ++ [with_cookie (self st)
                      (mkRequest "DELETE" id_url [content_type] None None)])%list.
Proof.
  intros Hs. cbv zeta.
  unfold EZID.update, EZID.create, EZID.mint, EZID.delete, bind, get_self, ret.
  rewrite (login_if_no_session_cached srv st Hs).
  repeat split.
  - match goal with
    | |- context [EZID._get_request srv ?r false st] =>
        destruct (get_request_wire srv r st) as [Hw _];
        destruct (EZID._get_request srv r false st) as [st1 [x|e]]
    end; exact Hw.
  - match goal with
    | |- context [EZID._get_request srv ?r false st] =>
        destruct (get_request_wire srv r st) as [Hw _];
        destruct (EZID._get_request srv r false st) as [st1 [x|e]]
    end; cbn [fst] in *; rewrite Hw; destruct opt as [[|e0 d]|]; reflexivity.
  - match goal with
    | |- context [EZID._get_request srv ?r false st] =>
        destruct (get_request_wire srv r st) as [Hw _];
        destruct (EZID._get_request srv r false st) as [st1 [x|e]]
    end; cbn [fst] in *; rewrite Hw; destruct opt as [[|e0 d]|]; reflexivity.
  - match goal with
    | |- context [EZID._get_request srv ?r false st] =>
        destruct (get_request_wire srv r st) as [Hw _];
        destruct (EZID._get_request srv r false st) as [st1 [x|e]]
    end; exact Hw.
Qed.

Lemma mutating_requests_witness :
  wire (fst (EZID.delete Scenario.ezid_server "ark:/99999/fk412345"
               (Scenario.start Scenario.with_session)))
  = [mkRequest "DELETE" "https://ezid.cdlib.org/id/ark:/99999/fk412345"
       [("Content-Type", "text/plain; charset=UTF-8");
        ("Cookie", "sessionid=abc123")] None None].
Proof.
  exact (proj2 (proj2 (proj2
           (mutating_requests Scenario.ezid_server
              (Scenario.start Scenario.with_session)
              "ark:/99999/fk412345" "" [] None eq_refl)))).
Defined.
